(** * GoMeet cost calculator (COST_CALCULATIONS.py): a shallow embedding

    The calculator object [GoMeetCostCalculator] holds five literal tables
    built by its constructor ([pricing], [infrastructure],
    [operational_costs], [bandwidth_requirements], [storage_requirements]).
    Every method reads [self] and builds a fresh result dictionary.

    Modelling choices:
    - the tables have a fixed shape, so they are records; the sub-tables the
      code iterates over or probes with [in] ([pricing['instances']],
      [api_services], [monitoring], [team_salaries]) are association lists
      keyed by strings, in insertion order, as Python dicts are;
    - result dictionaries are Python values ([pyval]); a dict is an
      association list in insertion order;
    - Python numbers (int and float alike) are exact rationals [Q]: the
      rounding of binary floating point is not modelled;
    - methods run in a state and error monad over a [World], which is the
      calculator's tables together with the wall clock read by
      [datetime.now()]; a failed dict lookup raises [KeyError]. *)

From Stdlib Require Import QArith Qround ZArith String List Bool Lia Lqa.
Import ListNotations.
#[global] Set Warnings "-register-all".
Open Scope Q_scope.

(** ** Python values *)

Inductive pykey := KStr (s : string) | KInt (z : Z).

Inductive pyval :=
| PNum (q : Q)
| PStr (s : string)
| PNone
| PTimestamp (t : Z)  (* [datetime.isoformat()] of the clock reading [t] *)
| PList (l : list pyval)
| PDict (d : list (pykey * pyval)).

Definition pykey_eqb (a b : pykey) : bool :=
  match a, b with
  | KStr s, KStr t => String.eqb s t
  | KInt x, KInt y => Z.eqb x y
  | _, _ => false
  end.

(** A dict literal with string keys. *)
Definition sdict (l : list (string * pyval)) : pyval :=
  PDict (map (fun kv => (KStr (fst kv), snd kv)) l).

Fixpoint assoc {A} (k : string) (l : list (string * A)) : option A :=
  match l with
  | [] => None
  | (k', v) :: r => if String.eqb k k' then Some v else assoc k r
  end.

Fixpoint dict_lookup (k : pykey) (d : list (pykey * pyval)) : option pyval :=
  match d with
  | [] => None
  | (k', v) :: r => if pykey_eqb k k' then Some v else dict_lookup k r
  end.

(** [d[k] = v]: replace in place when present, append otherwise. *)
Fixpoint dict_store (k : pykey) (v : pyval) (d : list (pykey * pyval))
  : list (pykey * pyval) :=
  match d with
  | [] => [(k, v)]
  | (k', v') :: r =>
      if pykey_eqb k k' then (k', v) :: r else (k', v') :: dict_store k v r
  end.

Definition pyget (x : pyval) (k : string) : option pyval :=
  match x with PDict d => dict_lookup (KStr k) d | _ => None end.

Definition pyset (x : pyval) (k : string) (v : pyval) : pyval :=
  match x with PDict d => PDict (dict_store (KStr k) v d) | _ => x end.

(** [x.get(k, 0)] on a dict whose values are numbers. *)
Definition get_num_or_zero (x : pyval) (k : string) : option Q :=
  match pyget x k with
  | None => Some 0
  | Some (PNum q) => Some q
  | Some _ => None
  end.

(** [int(x)] truncates toward zero. *)
Definition py_int (q : Q) : Q :=
  if Qle_bool 0 q then inject_Z (Qfloor q) else inject_Z (Qceiling q).

(** [min(a, b)] returns [a] unless [b < a]; [max(a, b)] returns [a] unless
    [a < b]. *)
Definition py_min (a b : Q) : Q := if Qlt_le_dec b a then b else a.
Definition py_max (a b : Q) : Q := if Qlt_le_dec a b then b else a.

(** ** The calculator's tables *)

Record InstanceSpec := { vcpu : Q; ram : Q; price : Q }.

Record BandwidthPricing :=
  { first_100tb : Q; next_400tb : Q; above_500tb : Q }.

Record StoragePricing := { block_storage : Q; bandwidth : BandwidthPricing }.

Record Pricing := {
  instances : list (string * InstanceSpec);
  storage : StoragePricing;
  load_balancer : Q;
  cdn : Q }.

Record LiveKitConfig := {
  lk_nodes : Q; lk_instance_type : string; lk_storage_gb : Q;
  auto_scaling_min : Q; auto_scaling_max : Q }.

(** [{'replicas': r, 'instance_type': t}] *)
Record ServiceConfig := { replicas : Q; svc_instance_type : string }.

(** [{'nodes': n, 'instance_type': t, 'storage_gb': g}] *)
Record NodeStorageConfig :=
  { ns_nodes : Q; ns_instance_type : string; ns_storage_gb : Q }.

(** [{'nodes': n, 'instance_type': t}] *)
Record NodeConfig := { n_nodes : Q; n_instance_type : string }.

Record DatabaseConfig :=
  { db_primary : NodeStorageConfig; db_replicas : NodeStorageConfig;
    pgbouncer : NodeConfig }.

Record RedisConfig :=
  { masters : NodeStorageConfig; redis_replicas : NodeStorageConfig }.

Record GatewayConfig := { traefik : NodeConfig; load_balancers : Q }.

(** A monitoring entry is probed with ['nodes' in c] and
    ['storage_gb' in c]: its keys are optional. *)
Record MonitoringConfig := {
  mon_nodes : option Q;
  mon_instance_type : option string;
  mon_storage_gb : option Q }.

Record Infrastructure := {
  livekit_sfu : LiveKitConfig;
  api_services : list (string * ServiceConfig);
  database : DatabaseConfig;
  redis : RedisConfig;
  gateway : GatewayConfig;
  monitoring : list (string * MonitoringConfig) }.

Record TeamRole := { count : Q; monthly_salary : Q }.

Record OperationalCosts := {
  team_salaries : list (string * TeamRole);
  marketing_sales : Q;
  operations_support : Q }.

Record BandwidthRequirements := {
  br_participants_per_meeting : Q;
  br_concurrent_meetings : Q;
  br_active_speakers_ratio : Q;
  br_video_bitrate_mbps : Q;
  br_audio_bitrate_kbps : Q;
  br_peak_hours_per_day : Q;
  br_days_per_month : Q;
  br_overhead_factor : Q }.

Record StorageRequirements := {
  sr_video_bitrate_mbps : Q;
  sr_participants_per_meeting : Q;
  sr_avg_meeting_duration_hours : Q;
  sr_concurrent_meetings : Q;
  sr_compression_ratio : Q;
  sr_hot_storage_days : Q;
  sr_cold_storage_cost_per_gb : Q }.

Record Calc := {
  pricing : Pricing;
  infrastructure : Infrastructure;
  operational_costs : OperationalCosts;
  bandwidth_requirements : BandwidthRequirements;
  storage_requirements : StorageRequirements }.

Open Scope string_scope.
Open Scope list_scope.

(** [GoMeetCostCalculator.__init__] *)
Definition init_calc : Calc := {|
  pricing := {|
    instances := [
      ("large", {| vcpu := 16; ram := 64; price := 334 |});
      ("medium", {| vcpu := 8; ram := 32; price := 167 |});
      ("small", {| vcpu := 4; ram := 16; price := 84 |});
      ("xsmall", {| vcpu := 2; ram := 8; price := 42 |});
      ("micro", {| vcpu := 1; ram := 4; price := 21 |})];
    storage := {|
      block_storage := 0.10;
      bandwidth := {| first_100tb := 0.01; next_400tb := 0.009;
                      above_500tb := 0.008 |} |};
    load_balancer := 20;
    cdn := 0.02 |};
  infrastructure := {|
    livekit_sfu := {| lk_nodes := 25; lk_instance_type := "large";
                      lk_storage_gb := 200; auto_scaling_min := 15;
                      auto_scaling_max := 50 |};
    api_services := [
      ("auth_service", {| replicas := 8; svc_instance_type := "small" |});
      ("meeting_service", {| replicas := 12; svc_instance_type := "small" |});
      ("signaling_service", {| replicas := 25; svc_instance_type := "medium" |});
      ("chat_service", {| replicas := 10; svc_instance_type := "xsmall" |});
      ("turn_service", {| replicas := 8; svc_instance_type := "xsmall" |})];
    database := {|
      db_primary := {| ns_nodes := 1; ns_instance_type := "large";
                       ns_storage_gb := 2000 |};
      db_replicas := {| ns_nodes := 3; ns_instance_type := "large";
                        ns_storage_gb := 2000 |};
      pgbouncer := {| n_nodes := 6; n_instance_type := "xsmall" |} |};
    redis := {|
      masters := {| ns_nodes := 6; ns_instance_type := "medium";
                    ns_storage_gb := 500 |};
      redis_replicas := {| ns_nodes := 6; ns_instance_type := "medium";
                           ns_storage_gb := 500 |} |};
    gateway := {| traefik := {| n_nodes := 6; n_instance_type := "small" |};
                  load_balancers := 3 |};
    monitoring := [
      ("prometheus", {| mon_nodes := Some 2; mon_instance_type := Some "medium";
                        mon_storage_gb := Some 500 |});
      ("grafana", {| mon_nodes := Some 3; mon_instance_type := Some "xsmall";
                     mon_storage_gb := Some 50 |});
      ("alertmanager", {| mon_nodes := Some 2; mon_instance_type := Some "micro";
                          mon_storage_gb := Some 20 |})] |};
  operational_costs := {|
    team_salaries := [
      ("backend_dev", {| count := 2; monthly_salary := 5000 |});
      ("devops", {| count := 1; monthly_salary := 5000 |})];
    marketing_sales := 5000;
    operations_support := 3000 |};
  bandwidth_requirements := {|
    br_participants_per_meeting := 500;
    br_concurrent_meetings := 100;
    br_active_speakers_ratio := 0.1;
    br_video_bitrate_mbps := 2;
    br_audio_bitrate_kbps := 64;
    br_peak_hours_per_day := 8;
    br_days_per_month := 30;
    br_overhead_factor := 1.3 |};
  storage_requirements := {|
    sr_video_bitrate_mbps := 2;
    sr_participants_per_meeting := 500;
    sr_avg_meeting_duration_hours := 2;
    sr_concurrent_meetings := 100;
    sr_compression_ratio := 0.3;
    sr_hot_storage_days := 30;
    sr_cold_storage_cost_per_gb := 0.004 |} |}.

(** ** The monad: tables plus the wall clock, and Python exceptions *)

Record World := { calc : Calc; clock : Z }.

Inductive exn := KeyError (k : string) | TypeError.

Inductive result (A : Type) := Ok (a : A) | Err (e : exn).
Arguments Ok {A} a.
Arguments Err {A} e.

Definition M (A : Type) : Type := World -> result A * World.

Definition ret {A} (a : A) : M A := fun w => (Ok a, w).

Definition bind {A B} (m : M A) (f : A -> M B) : M B :=
  fun w => match m w with
           | (Ok a, w') => f a w'
           | (Err e, w') => (Err e, w')
           end.

Definition raise {A} (e : exn) : M A := fun w => (Err e, w).

(** Reading [self]. *)
Definition self : M Calc := fun w => (Ok (calc w), w).

(** [datetime.now()]: reads the clock, which has moved on afterwards. *)
Definition now : M Z :=
  fun w => (Ok (clock w), {| calc := calc w; clock := (clock w + 1)%Z |}).

Notation "x <- m ;; k" := (bind m (fun x => k))
  (at level 61, m at next level, right associativity).

(** [d[k]] for an option-valued lookup. *)
Definition lookup_or_raise {A} (k : string) (o : option A) : M A :=
  match o with Some a => ret a | None => raise (KeyError k) end.

(** [d[k]] on a result dict, expecting a number. *)
Definition getq (x : pyval) (k : string) : M Q :=
  match pyget x k with
  | Some (PNum q) => ret q
  | Some _ => raise TypeError
  | None => raise (KeyError k)
  end.

(** ** Cost methods *)

Definition calculate_instance_cost (instance_type : string) (nodes : Q)
  : M pyval :=
  c <- self ;;
  instance <- lookup_or_raise instance_type (assoc instance_type (instances (pricing c))) ;;
  let monthly_cost := nodes * price instance in
  ret (sdict [
    ("instance_type", PStr instance_type);
    ("nodes", PNum nodes);
    ("vcpu_total", PNum (nodes * vcpu instance));
    ("ram_total_gb", PNum (nodes * ram instance));
    ("monthly_cost", PNum monthly_cost);
    ("annual_cost", PNum (monthly_cost * 12))]).

Definition calculate_storage_cost (storage_gb : Q) : M pyval :=
  c <- self ;;
  let monthly_cost := storage_gb * block_storage (storage (pricing c)) in
  ret (sdict [
    ("storage_gb", PNum storage_gb);
    ("monthly_cost", PNum monthly_cost);
    ("annual_cost", PNum (monthly_cost * 12))]).

Definition calculate_livekit_sfu_cost : M pyval :=
  c <- self ;;
  let config := livekit_sfu (infrastructure c) in
  base_cost <- calculate_instance_cost (lk_instance_type config) (lk_nodes config) ;;
  storage_cost <- calculate_storage_cost (lk_storage_gb config * lk_nodes config) ;;
  base_monthly <- getq base_cost "monthly_cost" ;;
  let auto_scaling_buffer := base_monthly * 0.5 in
  storage_monthly <- getq storage_cost "monthly_cost" ;;
  let total_monthly := base_monthly + storage_monthly + auto_scaling_buffer in
  ret (sdict [
    ("component", PStr "LiveKit SFU");
    ("base_cost", base_cost);
    ("storage_cost", storage_cost);
    ("auto_scaling_buffer", PNum auto_scaling_buffer);
    ("total_monthly", PNum total_monthly);
    ("total_annual", PNum (total_monthly * 12))]).

(** The [for service_name, service_config in config.items()] loop. *)
Fixpoint api_services_loop (config : list (string * ServiceConfig))
    (services : list pyval) (total_monthly : Q) : M (list pyval * Q) :=
  match config with
  | [] => ret (services, total_monthly)
  | (service_name, service_config) :: rest =>
      cost <- calculate_instance_cost (svc_instance_type service_config)
                                      (replicas service_config) ;;
      let cost := pyset cost "service" (PStr service_name) in
      m <- getq cost "monthly_cost" ;;
      api_services_loop rest (services ++ [cost]) (total_monthly + m)
  end.

Definition calculate_api_services_cost : M pyval :=
  c <- self ;;
  r <- api_services_loop (api_services (infrastructure c)) [] 0 ;;
  let (services, total_monthly) := r in
  ret (sdict [
    ("component", PStr "API Services");
    ("services", PList services);
    ("total_monthly", PNum total_monthly);
    ("total_annual", PNum (total_monthly * 12))]).

Definition calculate_database_cost : M pyval :=
  c <- self ;;
  let config := database (infrastructure c) in
  primary_cost <- calculate_instance_cost (ns_instance_type (db_primary config))
                                          (ns_nodes (db_primary config)) ;;
  replicas_cost <- calculate_instance_cost (ns_instance_type (db_replicas config))
                                           (ns_nodes (db_replicas config)) ;;
  pgbouncer_cost <- calculate_instance_cost (n_instance_type (pgbouncer config))
                                            (n_nodes (pgbouncer config)) ;;
  let total_storage := ns_storage_gb (db_primary config)
                       + ns_storage_gb (db_replicas config) * ns_nodes (db_replicas config) in
  storage_cost <- calculate_storage_cost total_storage ;;
  m1 <- getq primary_cost "monthly_cost" ;;
  m2 <- getq replicas_cost "monthly_cost" ;;
  m3 <- getq pgbouncer_cost "monthly_cost" ;;
  m4 <- getq storage_cost "monthly_cost" ;;
  let total_monthly := m1 + m2 + m3 + m4 in
  ret (sdict [
    ("component", PStr "Database Layer");
    ("primary_cost", primary_cost);
    ("replicas_cost", replicas_cost);
    ("pgbouncer_cost", pgbouncer_cost);
    ("storage_cost", storage_cost);
    ("total_monthly", PNum total_monthly);
    ("total_annual", PNum (total_monthly * 12))]).

Definition calculate_redis_cost : M pyval :=
  c <- self ;;
  let config := redis (infrastructure c) in
  masters_cost <- calculate_instance_cost (ns_instance_type (masters config))
                                          (ns_nodes (masters config)) ;;
  replicas_cost <- calculate_instance_cost (ns_instance_type (redis_replicas config))
                                           (ns_nodes (redis_replicas config)) ;;
  let total_storage := ns_storage_gb (masters config) * ns_nodes (masters config)
                       + ns_storage_gb (redis_replicas config) * ns_nodes (redis_replicas config) in
  storage_cost <- calculate_storage_cost total_storage ;;
  m1 <- getq masters_cost "monthly_cost" ;;
  m2 <- getq replicas_cost "monthly_cost" ;;
  m3 <- getq storage_cost "monthly_cost" ;;
  let total_monthly := m1 + m2 + m3 in
  ret (sdict [
    ("component", PStr "Redis Cluster");
    ("masters_cost", masters_cost);
    ("replicas_cost", replicas_cost);
    ("storage_cost", storage_cost);
    ("total_monthly", PNum total_monthly);
    ("total_annual", PNum (total_monthly * 12))]).

Definition calculate_gateway_cost : M pyval :=
  c <- self ;;
  let config := gateway (infrastructure c) in
  traefik_cost <- calculate_instance_cost (n_instance_type (traefik config))
                                          (n_nodes (traefik config)) ;;
  let lb_cost := load_balancers config * load_balancer (pricing c) in
  m <- getq traefik_cost "monthly_cost" ;;
  let total_monthly := m + lb_cost in
  ret (sdict [
    ("component", PStr "API Gateway");
    ("traefik_cost", traefik_cost);
    ("load_balancer_cost", PNum lb_cost);
    ("total_monthly", PNum total_monthly);
    ("total_annual", PNum (total_monthly * 12))]).

(** The [for component_name, component_config in config.items()] loop. *)
Fixpoint monitoring_loop (config : list (string * MonitoringConfig))
    (components : list pyval) (total_monthly total_storage_monthly : Q)
  : M (list pyval * Q * Q) :=
  match config with
  | [] => ret (components, total_monthly, total_storage_monthly)
  | (component_name, component_config) :: rest =>
      r1 <- match mon_nodes component_config with
            | Some nodes =>
                instance_type <- lookup_or_raise "instance_type"
                                   (mon_instance_type component_config) ;;
                cost <- calculate_instance_cost instance_type nodes ;;
                let cost := pyset cost "component_name" (PStr component_name) in
                m <- getq cost "monthly_cost" ;;
                ret (components ++ [cost], total_monthly + m)
            | None => ret (components, total_monthly)
            end ;;
      let (components, total_monthly) := r1 in
      r2 <- match mon_storage_gb component_config with
            | Some storage_gb =>
                storage_cost <- calculate_storage_cost storage_gb ;;
                let storage_cost :=
                  pyset storage_cost "component_name" (PStr component_name) in
                m <- getq storage_cost "monthly_cost" ;;
                ret (components ++ [storage_cost], total_storage_monthly + m)
            | None => ret (components, total_storage_monthly)
            end ;;
      let (components, total_storage_monthly) := r2 in
      monitoring_loop rest components total_monthly total_storage_monthly
  end.

Definition calculate_monitoring_cost : M pyval :=
  c <- self ;;
  r <- monitoring_loop (monitoring (infrastructure c)) [] 0 0 ;;
  let '(components, total_monthly, total_storage_monthly) := r in
  let total_monthly := total_monthly + total_storage_monthly in
  ret (sdict [
    ("component", PStr "Monitoring Stack");
    ("components", PList components);
    ("total_monthly", PNum total_monthly);
    ("total_annual", PNum (total_monthly * 12))]).

(** The three branches of the tiered bandwidth pricing, lines 349-361. *)
Definition bw_branch1 (p : BandwidthPricing) (monthly_bandwidth_tb : Q) : Q :=
  monthly_bandwidth_tb * 1024 * first_100tb p.

Definition bw_branch2 (p : BandwidthPricing) (monthly_bandwidth_tb : Q) : Q :=
  let cost_100tb := 100 * 1024 * first_100tb p in
  let remaining_tb := monthly_bandwidth_tb - 100 in
  let cost_remaining := remaining_tb * 1024 * next_400tb p in
  cost_100tb + cost_remaining.

Definition bw_branch3 (p : BandwidthPricing) (monthly_bandwidth_tb : Q) : Q :=
  let cost_100tb := 100 * 1024 * first_100tb p in
  let cost_400tb := 400 * 1024 * next_400tb p in
  let remaining_tb := monthly_bandwidth_tb - 500 in
  let cost_remaining := remaining_tb * 1024 * above_500tb p in
  cost_100tb + cost_400tb + cost_remaining.

Definition tiered_bandwidth_cost (p : BandwidthPricing) (monthly_bandwidth_tb : Q)
  : Q :=
  if Qle_bool monthly_bandwidth_tb 100 then bw_branch1 p monthly_bandwidth_tb
  else if Qle_bool monthly_bandwidth_tb 500 then bw_branch2 p monthly_bandwidth_tb
  else bw_branch3 p monthly_bandwidth_tb.

Definition calculate_bandwidth_cost : M pyval :=
  c <- self ;;
  let req := bandwidth_requirements c in
  let active_speakers :=
    py_int (br_participants_per_meeting req * br_active_speakers_ratio req) in
  let upload_bandwidth_mbps := active_speakers * 1.5 in
  let receive_streams_per_participant := py_min (active_speakers + 1) 6 in
  let download_bandwidth_per_participant := receive_streams_per_participant * 0.8 in
  let total_download_bandwidth :=
    download_bandwidth_per_participant * br_participants_per_meeting req in
  let total_per_meeting_mbps := upload_bandwidth_mbps + total_download_bandwidth in
  let audio_bandwidth_mbps :=
    br_participants_per_meeting req * br_audio_bitrate_kbps req / 1000 in
  let total_per_meeting_mbps := total_per_meeting_mbps + audio_bandwidth_mbps in
  let gb_per_hour_per_meeting := total_per_meeting_mbps * 0.45 in
  let gb_per_meeting := gb_per_hour_per_meeting * 0.75 in
  let full_capacity_meetings := py_int (br_concurrent_meetings req * 0.6) in
  let partial_capacity_meetings := br_concurrent_meetings req - full_capacity_meetings in
  let daily_bandwidth_gb := gb_per_meeting * full_capacity_meetings
                            + gb_per_meeting * 0.3 * partial_capacity_meetings in
  let monthly_bandwidth_tb := daily_bandwidth_gb * 22 / 1024 in
  let included_bandwidth_tb := 1 in
  let chargeable_bandwidth_tb := py_max 0 (monthly_bandwidth_tb - included_bandwidth_tb) in
  let monthly_cost :=
    tiered_bandwidth_cost (bandwidth (storage (pricing c))) monthly_bandwidth_tb in
  ret (sdict [
    ("component", PStr "Bandwidth");
    ("per_meeting_bandwidth_mbps", PNum total_per_meeting_mbps);
    ("peak_bandwidth_tb", PNum (monthly_bandwidth_tb * 0.6));
    ("off_peak_bandwidth_tb", PNum (monthly_bandwidth_tb * 0.4));
    ("total_bandwidth_tb", PNum monthly_bandwidth_tb);
    ("monthly_cost", PNum monthly_cost);
    ("annual_cost", PNum (monthly_cost * 12))]).

Definition calculate_storage_requirements_cost : M pyval :=
  c <- self ;;
  let req := storage_requirements c in
  let active_streams_per_meeting :=
    py_min (py_int (sr_participants_per_meeting req * 0.15)) 8 in
  let recording_bitrate_mbps := 1.0 in
  let per_hour_gb := recording_bitrate_mbps * 3600 / 8 / 1024 in
  let per_meeting_gb :=
    per_hour_gb * active_streams_per_meeting * sr_avg_meeting_duration_hours req in
  let recording_adoption_rate := 0.7 in
  let daily_meetings := py_int (sr_concurrent_meetings req * recording_adoption_rate) in
  let daily_storage_gb := per_meeting_gb * daily_meetings in
  let compressed_daily_storage_gb := daily_storage_gb * sr_compression_ratio req in
  let hot_storage_gb := compressed_daily_storage_gb * sr_hot_storage_days req in
  let cold_storage_months := 11 in
  let cold_storage_gb := compressed_daily_storage_gb * cold_storage_months * 30 in
  let hot_storage_cost := hot_storage_gb * block_storage (storage (pricing c)) in
  let cold_storage_cost := cold_storage_gb * sr_cold_storage_cost_per_gb req in
  let total_monthly := hot_storage_cost + cold_storage_cost in
  ret (sdict [
    ("component", PStr "Storage (Recordings)");
    ("per_meeting_gb", PNum per_meeting_gb);
    ("daily_storage_gb", PNum daily_storage_gb);
    ("compressed_daily_storage_gb", PNum compressed_daily_storage_gb);
    ("hot_storage_gb", PNum hot_storage_gb);
    ("cold_storage_gb", PNum cold_storage_gb);
    ("hot_storage_monthly_cost", PNum hot_storage_cost);
    ("cold_storage_monthly_cost", PNum cold_storage_cost);
    ("total_monthly", PNum total_monthly);
    ("total_annual", PNum (total_monthly * 12))]).

(** The [for role, config in ...['team_salaries'].items()] loop. *)
Fixpoint team_loop (roles : list (string * TeamRole)) (team_monthly : Q)
    (team_details : list pyval) : Q * list pyval :=
  match roles with
  | [] => (team_monthly, team_details)
  | (role, config) :: rest =>
      let monthly_cost := count config * monthly_salary config in
      team_loop rest (team_monthly + monthly_cost)
        (team_details ++ [sdict [
           ("role", PStr role);
           ("count", PNum (count config));
           ("monthly_salary", PNum (monthly_salary config));
           ("monthly_cost", PNum monthly_cost)]])
  end.

Definition calculate_operational_costs : M pyval :=
  c <- self ;;
  let oc := operational_costs c in
  let (team_monthly, team_details) := team_loop (team_salaries oc) 0 [] in
  let total_monthly := team_monthly + marketing_sales oc + operations_support oc in
  ret (sdict [
    ("component", PStr "Operational Costs");
    ("team_costs", PList team_details);
    ("team_monthly", PNum team_monthly);
    ("marketing_sales", PNum (marketing_sales oc));
    ("operations_support", PNum (operations_support oc));
    ("total_monthly", PNum total_monthly);
    ("total_annual", PNum (total_monthly * 12))]).

(** [sum(comp.get('total_monthly', 0) for comp in components)]: [sum]
    starts from [0] and adds left to right. *)
Fixpoint sum_total_monthly (components : list pyval) (acc : Q) : M Q :=
  match components with
  | [] => ret acc
  | comp :: rest =>
      match get_num_or_zero comp "total_monthly" with
      | Some q => sum_total_monthly rest (acc + q)
      | None => raise TypeError
      end
  end.

Definition calculate_total_infrastructure_cost : M pyval :=
  c1 <- calculate_livekit_sfu_cost ;;
  c2 <- calculate_api_services_cost ;;
  c3 <- calculate_database_cost ;;
  c4 <- calculate_redis_cost ;;
  c5 <- calculate_gateway_cost ;;
  c6 <- calculate_monitoring_cost ;;
  c7 <- calculate_bandwidth_cost ;;
  c8 <- calculate_storage_requirements_cost ;;
  let components := [c1; c2; c3; c4; c5; c6; c7; c8] in
  total_infrastructure_monthly <- sum_total_monthly components 0 ;;
  let contingency := total_infrastructure_monthly * 0.15 in
  let total_with_contingency := total_infrastructure_monthly + contingency in
  ret (sdict [
    ("components", PList components);
    ("infrastructure_monthly", PNum total_infrastructure_monthly);
    ("contingency_monthly", PNum contingency);
    ("total_monthly", PNum total_with_contingency);
    ("total_annual", PNum (total_with_contingency * 12))]).

Definition calculate_one_time_costs : M pyval :=
  c <- self ;;
  let ts := team_salaries (operational_costs c) in
  let development_months := 4 in
  backend_dev <- lookup_or_raise "backend_dev" (assoc "backend_dev" ts) ;;
  devops <- lookup_or_raise "devops" (assoc "devops" ts) ;;
  let team_monthly_cost := count backend_dev * monthly_salary backend_dev
                           + count devops * monthly_salary devops in
  let development_cost := team_monthly_cost * development_months in
  ret (sdict [
    ("development", PNum development_cost);
    ("infrastructure_setup", PNum 50000);
    ("testing_qa", PNum 30000);
    ("marketing_launch", PNum 50000);
    ("total", PNum (development_cost + 50000 + 30000 + 50000))]).

(** ** ROI analysis *)

(** The local [pricing_tiers] table of [generate_roi_analysis]. *)
Record PricingTier := { tier_price : Q; max_participants : Q }.

Definition tier_basic : PricingTier := {| tier_price := 10; max_participants := 50 |}.
Definition tier_professional : PricingTier :=
  {| tier_price := 50; max_participants := 200 |}.
Definition tier_enterprise : PricingTier :=
  {| tier_price := 200; max_participants := 500 |}.

(** An entry of the local [scenarios] table. *)
Record Scenario := {
  year1_meetings_per_day : Q;
  year2_meetings_per_day : Q;
  year3_meetings_per_day : Q;
  enterprise_ratio : Q }.

Definition scenarios : list (string * Scenario) := [
  ("conservative", {| year1_meetings_per_day := 100; year2_meetings_per_day := 500;
                      year3_meetings_per_day := 1000; enterprise_ratio := 0.2 |});
  ("moderate", {| year1_meetings_per_day := 200; year2_meetings_per_day := 1000;
                  year3_meetings_per_day := 2000; enterprise_ratio := 0.25 |});
  ("aggressive", {| year1_meetings_per_day := 500; year2_meetings_per_day := 2000;
                    year3_meetings_per_day := 5000; enterprise_ratio := 0.3 |})].

(** [scenario_config[f'year{year}_meetings_per_day']] *)
Definition meetings_per_day_of (s : Scenario) (year : Z) : option Q :=
  match year with
  | 1%Z => Some (year1_meetings_per_day s)
  | 2%Z => Some (year2_meetings_per_day s)
  | 3%Z => Some (year3_meetings_per_day s)
  | _ => None
  end.

(** One pass of the [for year in [1, 2, 3]] loop: the year's revenue and
    profit. *)
Definition year_figures (s : Scenario) (total_monthly_burn : Q) (meetings_per_day : Q)
  : Q * Q :=
  let enterprise_meetings := meetings_per_day * enterprise_ratio s in
  let professional_meetings := meetings_per_day * 0.3 in
  let basic_meetings := meetings_per_day - enterprise_meetings - professional_meetings in
  let monthly_revenue := (enterprise_meetings * tier_price tier_enterprise
                          + professional_meetings * tier_price tier_professional
                          + basic_meetings * tier_price tier_basic) * 30 in
  let yearly_revenue := monthly_revenue * 12 in
  (yearly_revenue, yearly_revenue - total_monthly_burn * 12).

Definition yearly_revenue (s : Scenario) (burn : Q) (year : Z) : Q :=
  match meetings_per_day_of s year with
  | Some m => fst (year_figures s burn m) | None => 0 end.

Definition yearly_profit (s : Scenario) (burn : Q) (year : Z) : Q :=
  match meetings_per_day_of s year with
  | Some m => snd (year_figures s burn m) | None => 0 end.

(** The break-even scan, lines 553-572: [for month in range(1, 37)]. *)
Definition month_profit (yp1 yp2 yp3 : Q) (month : nat) : Q :=
  if (month <=? 12)%nat then yp1 / 12
  else if (month <=? 24)%nat then yp2 / 12
  else yp3 / 12.

Fixpoint break_even_loop (yp1 yp2 yp3 one_time_costs : Q) (months : list nat)
    (cumulative_profit : Q) (break_even_month : option nat) : option nat :=
  match months with
  | [] => break_even_month
  | month :: rest =>
      let monthly_profit := month_profit yp1 yp2 yp3 month in
      let cumulative_profit :=
        if (month =? 1)%nat then monthly_profit - one_time_costs
        else cumulative_profit + monthly_profit in
      if Qlt_le_dec 0 cumulative_profit then
        match break_even_month with
        | None => Some month  (* [break_even_month = month; break] *)
        | Some _ =>
            break_even_loop yp1 yp2 yp3 one_time_costs rest cumulative_profit
              break_even_month
        end
      else
        break_even_loop yp1 yp2 yp3 one_time_costs rest cumulative_profit
          break_even_month
  end.

Definition break_even_scan (yp1 yp2 yp3 one_time_costs : Q) : option nat :=
  break_even_loop yp1 yp2 yp3 one_time_costs (seq 1 36) 0 None.

Definition int_dict (f : Z -> Q) : pyval :=
  PDict (map (fun y => (KInt y, PNum (f y))) [1%Z; 2%Z; 3%Z]).

Definition break_even_value (o : option nat) : pyval :=
  match o with Some m => PNum (inject_Z (Z.of_nat m)) | None => PNone end.

(** One pass of the [for scenario_name, scenario_config in scenarios.items()]
    loop: the scenario's entry of [roi_analysis]. *)
Definition scenario_entry (s : Scenario) (burn : Q) : M pyval :=
  let yp := yearly_profit s burn in
  ot <- calculate_one_time_costs ;;
  one_time_costs <- getq ot "total" ;;
  let break_even_month := break_even_scan (yp 1%Z) (yp 2%Z) (yp 3%Z) one_time_costs in
  ret (sdict [
    ("yearly_revenue", int_dict (yearly_revenue s burn));
    ("yearly_profit", int_dict yp);
    ("break_even_month", break_even_value break_even_month);
    ("total_3_year_profit",
       PNum (fold_left Qplus [yp 1%Z; yp 2%Z; yp 3%Z] 0 - one_time_costs))]).

Fixpoint roi_loop (ss : list (string * Scenario)) (burn : Q)
    (roi_analysis : list (pykey * pyval)) : M (list (pykey * pyval)) :=
  match ss with
  | [] => ret roi_analysis
  | (scenario_name, scenario_config) :: rest =>
      e <- scenario_entry scenario_config burn ;;
      roi_loop rest burn (dict_store (KStr scenario_name) e roi_analysis)
  end.

Definition generate_roi_analysis : M pyval :=
  operational <- calculate_operational_costs ;;
  infrastructure_costs <- calculate_total_infrastructure_cost ;;
  o <- getq operational "total_monthly" ;;
  i <- getq infrastructure_costs "total_monthly" ;;
  let total_monthly_burn := o + i in
  roi_analysis <- roi_loop scenarios total_monthly_burn [] ;;
  one <- calculate_one_time_costs ;;
  ret (sdict [
    ("scenarios", PDict roi_analysis);
    ("monthly_burn", PNum total_monthly_burn);
    ("one_time_costs", one)]).

(** ** Cost optimisation *)

Record Optimization := {
  description : string;
  savings_percentage : Q;
  applicable_components : list string }.

Definition optimizations : list (string * Optimization) := [
  ("reserved_instances",
    {| description := "30% discount for 1-year commitment";
       savings_percentage := 0.30;
       applicable_components :=
         ["LiveKit SFU"; "API Services"; "Database Layer"; "Redis Cluster"] |});
  ("spot_instances",
    {| description := "70% discount for non-critical services";
       savings_percentage := 0.70;
       applicable_components := ["Monitoring Stack"; "Development environments"] |});
  ("storage_optimization",
    {| description := "Compression and tiered storage";
       savings_percentage := 0.50;
       applicable_components := ["Storage (Recordings)"] |});
  ("network_optimization",
    {| description := "CDN integration and compression";
       savings_percentage := 0.30;
       applicable_components := ["Bandwidth"] |})].

(** [component['component'] in opt_config['applicable_components']] *)
Definition component_applies (component : pyval) (applicable : list string) : M bool :=
  match pyget component "component" with
  | Some (PStr s) => ret (existsb (String.eqb s) applicable)
  | Some _ => ret false
  | None => raise (KeyError "component")
  end.

Fixpoint applicable_cost_loop (components : list pyval) (applicable : list string)
    (applicable_cost : Q) : M Q :=
  match components with
  | [] => ret applicable_cost
  | component :: rest =>
      b <- component_applies component applicable ;;
      if b then
        match get_num_or_zero component "total_monthly" with
        | Some q => applicable_cost_loop rest applicable (applicable_cost + q)
        | None => raise TypeError
        end
      else applicable_cost_loop rest applicable applicable_cost
  end.

Fixpoint optimization_loop (opts : list (string * Optimization))
    (components : list pyval) (total_monthly_savings : Q)
    (optimization_details : list pyval) : M (Q * list pyval) :=
  match opts with
  | [] => ret (total_monthly_savings, optimization_details)
  | (opt_name, opt_config) :: rest =>
      applicable_cost <- applicable_cost_loop components
                           (applicable_components opt_config) 0 ;;
      let monthly_savings := applicable_cost * savings_percentage opt_config in
      optimization_loop rest components (total_monthly_savings + monthly_savings)
        (optimization_details ++ [sdict [
           ("optimization", PStr opt_name);
           ("description", PStr (description opt_config));
           ("applicable_cost", PNum applicable_cost);
           ("savings_percentage", PNum (savings_percentage opt_config));
           ("monthly_savings", PNum monthly_savings);
           ("annual_savings", PNum (monthly_savings * 12))]])
  end.

Definition get_list (x : pyval) (k : string) : M (list pyval) :=
  match pyget x k with
  | Some (PList l) => ret l
  | Some _ => raise TypeError
  | None => raise (KeyError k)
  end.

Definition generate_cost_optimization_analysis : M pyval :=
  base_infrastructure_cost <- calculate_total_infrastructure_cost ;;
  components <- get_list base_infrastructure_cost "components" ;;
  r <- optimization_loop optimizations components 0 [] ;;
  let (total_monthly_savings, optimization_details) := r in
  base <- getq base_infrastructure_cost "total_monthly" ;;
  let optimized_monthly_cost := base - total_monthly_savings in
  ret (sdict [
    ("base_monthly_cost", PNum base);
    ("optimizations", PList optimization_details);
    ("total_monthly_savings", PNum total_monthly_savings);
    ("optimized_monthly_cost", PNum optimized_monthly_cost);
    ("total_annual_savings", PNum (total_monthly_savings * 12))]).

(** ** Resource summary *)

(** [self.pricing['instances'][t]] *)
Definition instance_of (t : string) : M InstanceSpec :=
  c <- self ;;
  lookup_or_raise t (assoc t (instances (pricing c))).

Fixpoint services_resources (ss : list (string * ServiceConfig)) (vcpus rams : Q)
  : M (Q * Q) :=
  match ss with
  | [] => ret (vcpus, rams)
  | (_, service_config) :: rest =>
      i1 <- instance_of (svc_instance_type service_config) ;;
      let vcpus := vcpus + replicas service_config * vcpu i1 in
      i2 <- instance_of (svc_instance_type service_config) ;;
      let rams := rams + replicas service_config * ram i2 in
      services_resources rest vcpus rams
  end.

Fixpoint monitoring_resources (ms : list (string * MonitoringConfig))
    (vcpus rams storage_gb : Q) : M (Q * Q * Q) :=
  match ms with
  | [] => ret (vcpus, rams, storage_gb)
  | (_, component_config) :: rest =>
      r <- match mon_nodes component_config with
           | Some nodes =>
               t1 <- lookup_or_raise "instance_type" (mon_instance_type component_config) ;;
               i1 <- instance_of t1 ;;
               let vcpus := vcpus + nodes * vcpu i1 in
               t2 <- lookup_or_raise "instance_type" (mon_instance_type component_config) ;;
               i2 <- instance_of t2 ;;
               ret (vcpus, rams + nodes * ram i2)
           | None => ret (vcpus, rams)
           end ;;
      let (vcpus, rams) := r in
      let storage_gb := match mon_storage_gb component_config with
                        | Some g => storage_gb + g
                        | None => storage_gb
                        end in
      monitoring_resources rest vcpus rams storage_gb
  end.

Definition generate_resource_summary : M pyval :=
  c <- self ;;
  let infra := infrastructure c in
  (* LiveKit *)
  let livekit := livekit_sfu infra in
  i <- instance_of (lk_instance_type livekit) ;;
  let total_vcpu := 0 + lk_nodes livekit * vcpu i in
  i <- instance_of (lk_instance_type livekit) ;;
  let total_ram_gb := 0 + lk_nodes livekit * ram i in
  let total_storage_gb := 0 + lk_nodes livekit * lk_storage_gb livekit in
  (* API services *)
  r <- services_resources (api_services infra) total_vcpu total_ram_gb ;;
  let (total_vcpu, total_ram_gb) := r in
  (* Database: replicas are counted with the primary's instance type *)
  let db_config := database infra in
  let db_nodes := ns_nodes (db_primary db_config) + ns_nodes (db_replicas db_config) in
  i <- instance_of (ns_instance_type (db_primary db_config)) ;;
  let total_vcpu := total_vcpu + db_nodes * vcpu i in
  i <- instance_of (ns_instance_type (db_primary db_config)) ;;
  let total_ram_gb := total_ram_gb + db_nodes * ram i in
  let total_storage_gb := total_storage_gb
    + (ns_storage_gb (db_primary db_config)
       + ns_storage_gb (db_replicas db_config) * ns_nodes (db_replicas db_config)) in
  i <- instance_of (n_instance_type (pgbouncer db_config)) ;;
  let total_vcpu := total_vcpu + n_nodes (pgbouncer db_config) * vcpu i in
  i <- instance_of (n_instance_type (pgbouncer db_config)) ;;
  let total_ram_gb := total_ram_gb + n_nodes (pgbouncer db_config) * ram i in
  (* Redis *)
  let redis_config := redis infra in
  let redis_nodes := ns_nodes (masters redis_config) + ns_nodes (redis_replicas redis_config) in
  i <- instance_of (ns_instance_type (masters redis_config)) ;;
  let total_vcpu := total_vcpu + redis_nodes * vcpu i in
  i <- instance_of (ns_instance_type (masters redis_config)) ;;
  let total_ram_gb := total_ram_gb + redis_nodes * ram i in
  let total_storage_gb := total_storage_gb
    + (ns_storage_gb (masters redis_config) * ns_nodes (masters redis_config)
       + ns_storage_gb (redis_replicas redis_config) * ns_nodes (redis_replicas redis_config)) in
  (* Gateway *)
  let gateway_config := gateway infra in
  i <- instance_of (n_instance_type (traefik gateway_config)) ;;
  let total_vcpu := total_vcpu + n_nodes (traefik gateway_config) * vcpu i in
  i <- instance_of (n_instance_type (traefik gateway_config)) ;;
  let total_ram_gb := total_ram_gb + n_nodes (traefik gateway_config) * ram i in
  (* Monitoring *)
  r <- monitoring_resources (monitoring infra) total_vcpu total_ram_gb total_storage_gb ;;
  let '(total_vcpu, total_ram_gb, total_storage_gb) := r in
  t1 <- calculate_total_infrastructure_cost ;;
  per_participant <- getq t1 "total_monthly" ;;
  t2 <- calculate_total_infrastructure_cost ;;
  per_meeting <- getq t2 "total_monthly" ;;
  ret (sdict [
    ("total_vcpu", PNum total_vcpu);
    ("total_ram_gb", PNum total_ram_gb);
    ("total_storage_gb", PNum total_storage_gb);
    ("participant_capacity", PNum 50000);
    ("meetings_capacity", PNum 100);
    ("cost_per_participant_monthly", PNum (per_participant / 50000));
    ("cost_per_meeting_monthly", PNum (per_meeting / 100))]).

(** ** The report *)

Definition generate_complete_report : M pyval :=
  timestamp <- now ;;
  infrastructure_costs <- calculate_total_infrastructure_cost ;;
  operational <- calculate_operational_costs ;;
  one_time <- calculate_one_time_costs ;;
  roi_analysis <- generate_roi_analysis ;;
  cost_optimization <- generate_cost_optimization_analysis ;;
  resource_summary <- generate_resource_summary ;;
  ret (sdict [
    ("timestamp", PTimestamp timestamp);
    ("infrastructure_costs", infrastructure_costs);
    ("operational_costs", operational);
    ("one_time_costs", one_time);
    ("roi_analysis", roi_analysis);
    ("cost_optimization", cost_optimization);
    ("resource_summary", resource_summary)]).

(** The methods of [GoMeetCostCalculator]. *)
Inductive method :=
| CalculateInstanceCost (instance_type : string) (nodes : Q)
| CalculateStorageCost (storage_gb : Q)
| CalculateLivekitSfuCost
| CalculateApiServicesCost
| CalculateDatabaseCost
| CalculateRedisCost
| CalculateGatewayCost
| CalculateMonitoringCost
| CalculateBandwidthCost
| CalculateStorageRequirementsCost
| CalculateOperationalCosts
| CalculateTotalInfrastructureCost
| CalculateOneTimeCosts
| GenerateRoiAnalysis
| GenerateCostOptimizationAnalysis
| GenerateCompleteReport
| GenerateResourceSummary.

Definition run_method (m : method) : M pyval :=
  match m with
  | CalculateInstanceCost t n => calculate_instance_cost t n
  | CalculateStorageCost g => calculate_storage_cost g
  | CalculateLivekitSfuCost => calculate_livekit_sfu_cost
  | CalculateApiServicesCost => calculate_api_services_cost
  | CalculateDatabaseCost => calculate_database_cost
  | CalculateRedisCost => calculate_redis_cost
  | CalculateGatewayCost => calculate_gateway_cost
  | CalculateMonitoringCost => calculate_monitoring_cost
  | CalculateBandwidthCost => calculate_bandwidth_cost
  | CalculateStorageRequirementsCost => calculate_storage_requirements_cost
  | CalculateOperationalCosts => calculate_operational_costs
  | CalculateTotalInfrastructureCost => calculate_total_infrastructure_cost
  | CalculateOneTimeCosts => calculate_one_time_costs
  | GenerateRoiAnalysis => generate_roi_analysis
  | GenerateCostOptimizationAnalysis => generate_cost_optimization_analysis
  | GenerateCompleteReport => generate_complete_report
  | GenerateResourceSummary => generate_resource_summary
  end.

(** Calls made one after the other on the same calculator. *)
Fixpoint run_methods (ms : list method) (w : World) : World :=
  match ms with
  | [] => w
  | m :: rest => run_methods rest (snd (run_method m w))
  end.

(** The world [main] starts from: the constructor's tables, any clock. *)
Definition init_world (t : Z) : World := {| calc := init_calc; clock := t |}.

Definition report_result (t : Z) : result pyval :=
  fst (generate_complete_report (init_world t)).

(** ** Reading results *)

(** [R[k]] is the number [q] up to rational equality. *)
Definition has_num (R : pyval) (k : string) (q : Q) : Prop :=
  exists x, pyget R k = Some (PNum x) /\ x == q.

Definition dict_keys (x : pyval) : list pykey :=
  match x with PDict d => map fst d | _ => [] end.

Definition sub (x : pyval) (k : string) : pyval :=
  match pyget x k with Some v => v | None => PNone end.

(** ** Definitions following the spec's words *)

(** The cumulative profit through month [m] as the spec describes it:
    month 1's profit minus the one-time costs, plus every later month's
    profit. *)
Fixpoint cumulative_profit_at (yp1 yp2 yp3 one_time_costs : Q) (m : nat) : Q :=
  match m with
  | O => 0
  | S O => month_profit yp1 yp2 yp3 1 - one_time_costs
  | S k => cumulative_profit_at yp1 yp2 yp3 one_time_costs k + month_profit yp1 yp2 yp3 m
  end.

(** The three-branch bandwidth price as the spec states it. *)
Definition bandwidth_cost_spec (t : Q) : Q :=
  if Qle_bool t 100 then t * 1024 * 0.01
  else if Qle_bool t 500 then 100 * 1024 * 0.01 + (t - 100) * 1024 * 0.009
  else 100 * 1024 * 0.01 + 400 * 1024 * 0.009 + (t - 500) * 1024 * 0.008.

(** ** Effects *)

(** [m] leaves the calculator's tables as they were. *)
Definition frames {A} (m : M A) : Prop :=
  forall w, calc (snd (m w)) = calc w.

(** [m]'s outcome, and the tables it leaves, depend on the tables only,
    not on the clock. *)
Definition clock_indep {A} (m : M A) : Prop :=
  forall w1 w2, calc w1 = calc w2 ->
    fst (m w1) = fst (m w2) /\ calc (snd (m w1)) = calc (snd (m w2)).

(** Only [generate_complete_report] reads the clock. *)
Definition reads_clock (m : method) : bool :=
  match m with GenerateCompleteReport => true | _ => false end.

(** ** The monitoring stack, component by component, as the spec states it *)

(** A component's instance cost: its node count times its type's price. *)
Definition mon_instance_cost (c : Calc) (mc : MonitoringConfig) : Q :=
  match mon_nodes mc, mon_instance_type mc with
  | Some n, Some t =>
      match assoc t (instances (pricing c)) with
      | Some i => n * price i
      | None => 0
      end
  | _, _ => 0
  end.

(** A component's storage cost: its storage at the block-storage rate,
    once per component. *)
Definition mon_storage_cost (c : Calc) (mc : MonitoringConfig) : Q :=
  match mon_storage_gb mc with
  | Some g => g * block_storage (storage (pricing c))
  | None => 0
  end.

(** A component with nodes names an instance type of the price table. *)
Definition mon_priced (c : Calc) (mc : MonitoringConfig) : Prop :=
  forall n, mon_nodes mc = Some n ->
  exists t i, mon_instance_type mc = Some t /\ assoc t (instances (pricing c)) = Some i.

Definition sumQ (l : list Q) : Q := fold_right Qplus 0 l.

(** ** The infrastructure total as the spec states it *)

(** A component's monthly cost: its [total_monthly], or the [monthly_cost]
    that the bandwidth component reports instead. *)
Definition component_cost (comp : pyval) : Q :=
  match pyget comp "total_monthly" with
  | Some (PNum q) => q
  | _ => match pyget comp "monthly_cost" with Some (PNum q) => q | _ => 0 end
  end.

(** ** An ROI scenario's three-year profit as the spec states it *)

(** [E]'s [total_3_year_profit] is the sum of its [yearly_profit] values
    minus the one-time cost: four months of the backend and devops
    salaries, plus 50000, 30000 and 50000. *)
Definition profit_entry_ok (c : Calc) (E : pyval) : Prop :=
  exists bd dv y1 y2 y3,
    assoc "backend_dev" (team_salaries (operational_costs c)) = Some bd /\
    assoc "devops" (team_salaries (operational_costs c)) = Some dv /\
    pyget E "yearly_profit"
      = Some (PDict [(KInt 1, PNum y1); (KInt 2, PNum y2); (KInt 3, PNum y3)]) /\
    has_num E "total_3_year_profit"
      (y1 + y2 + y3
       - (4 * (count bd * monthly_salary bd + count dv * monthly_salary dv)
          + 50000 + 30000 + 50000)).

(** ** Properties of results *)

(** Every value [m] returns satisfies [P]. *)
Definition returns {A} (m : M A) (P : A -> Prop) : Prop :=
  forall w a w', m w = (Ok a, w') -> P a.

(** [comp.get('total_monthly', 0)] for a dict whose value is a number. *)
Definition total_monthly_of (comp : pyval) : Q :=
  match get_num_or_zero comp "total_monthly" with Some q => q | None => 0 end.

(** A component result: its [component] name, and whether it carries a
    numeric [total_monthly] ([true]) or no such key ([false]). *)
Definition component_shape (name : string) (has_total : bool) (R : pyval) : Prop :=
  pyget R "component" = Some (PStr name) /\
  if has_total then exists q, pyget R "total_monthly" = Some (PNum q)
  else pyget R "total_monthly" = None.

(** The cost an optimisation applies to: the [total_monthly] of the
    components, paired with their names, whose name it lists. *)
Definition applicable_sum (applicable : list string) (cs : list (pyval * string)) : Q :=
  sumQ (map (fun p => if existsb (String.eqb (snd p)) applicable
                      then total_monthly_of (fst p) else 0) cs).

(** ** Other configurations *)

(** [c] with another list of instance types in its price table. *)
Definition with_instances (c : Calc) (insts : list (string * InstanceSpec)) : Calc := {|
  pricing := {| instances := insts; storage := storage (pricing c);
                load_balancer := load_balancer (pricing c); cdn := cdn (pricing c) |};
  infrastructure := infrastructure c;
  operational_costs := operational_costs c;
  bandwidth_requirements := bandwidth_requirements c;
  storage_requirements := storage_requirements c |}.

(** [c] with another [team_salaries] table. *)
Definition with_team_salaries (c : Calc) (ts : list (string * TeamRole)) : Calc := {|
  pricing := pricing c;
  infrastructure := infrastructure c;
  operational_costs := {| team_salaries := ts;
                          marketing_sales := marketing_sales (operational_costs c);
                          operations_support := operations_support (operational_costs c) |};
  bandwidth_requirements := bandwidth_requirements c;
  storage_requirements := storage_requirements c |}.

(** The role whose lookup fails first in [calculate_one_time_costs]. *)
Definition first_missing_role (ts : list (string * TeamRole)) : string :=
  match assoc "backend_dev" ts with None => "backend_dev" | Some _ => "devops" end.

(** ** Costs per entry of the configuration *)

(** A team role's monthly cost: [count] times [monthly_salary]. *)
Definition role_cost (p : string * TeamRole) : Q := count (snd p) * monthly_salary (snd p).

(** The roles other than [backend_dev] and [devops]. *)
Definition other_roles (ts : list (string * TeamRole)) : list (string * TeamRole) :=
  filter (fun p => negb (String.eqb (fst p) "devops"))
    (filter (fun p => negb (String.eqb (fst p) "backend_dev")) ts).

(** The type is in [c]'s price table. *)
Definition priced (c : Calc) (t : string) : Prop :=
  exists i, assoc t (instances (pricing c)) = Some i.

(** The unit price of type [t] in [c]'s price table. *)
Definition price_of (c : Calc) (t : string) : Q :=
  match assoc t (instances (pricing c)) with Some i => price i | None => 0 end.

(** [c] with another [monitoring] table. *)
Definition with_monitoring (c : Calc) (ms : list (string * MonitoringConfig)) : Calc := {|
  pricing := pricing c;
  infrastructure := {| livekit_sfu := livekit_sfu (infrastructure c);
                       api_services := api_services (infrastructure c);
                       database := database (infrastructure c);
                       redis := redis (infrastructure c);
                       gateway := gateway (infrastructure c);
                       monitoring := ms |};
  operational_costs := operational_costs c;
  bandwidth_requirements := bandwidth_requirements c;
  storage_requirements := storage_requirements c |}.

(** ** The resource summary as a formula of the tables *)

(** A field ([vcpu] or [ram]) of type [t] in [c]'s price table. *)
Definition spec_of (f : InstanceSpec -> Q) (c : Calc) (t : string) : Q :=
  match assoc t (instances (pricing c)) with Some i => f i | None => 0 end.

(** A monitoring entry's nodes times its type's [f], when it has nodes. *)
Definition mon_units (f : InstanceSpec -> Q) (c : Calc) (mc : MonitoringConfig) : Q :=
  match mon_nodes mc, mon_instance_type mc with
  | Some n, Some t => n * spec_of f c t
  | _, _ => 0
  end.

Definition mon_storage (mc : MonitoringConfig) : Q :=
  match mon_storage_gb mc with Some g => g | None => 0 end.

(** The vCPUs ([f = vcpu]) or RAM ([f = ram]) [generate_resource_summary]
    adds up: the database replicas and the Redis replicas are counted with
    the primary's and the masters' instance type. *)
Definition summary_units (f : InstanceSpec -> Q) (c : Calc) : Q :=
  let infra := infrastructure c in
  let lk := livekit_sfu infra in
  let db := database infra in
  let rd := redis infra in
  let tr := traefik (gateway infra) in
  lk_nodes lk * spec_of f c (lk_instance_type lk)
  + sumQ (map (fun p => replicas (snd p) * spec_of f c (svc_instance_type (snd p)))
              (api_services infra))
  + (ns_nodes (db_primary db) + ns_nodes (db_replicas db))
    * spec_of f c (ns_instance_type (db_primary db))
  + n_nodes (pgbouncer db) * spec_of f c (n_instance_type (pgbouncer db))
  + (ns_nodes (masters rd) + ns_nodes (redis_replicas rd))
    * spec_of f c (ns_instance_type (masters rd))
  + n_nodes tr * spec_of f c (n_instance_type tr)
  + sumQ (map (fun p => mon_units f c (snd p)) (monitoring infra)).

(** The storage [generate_resource_summary] adds up. *)
Definition summary_storage (c : Calc) : Q :=
  let infra := infrastructure c in
  let lk := livekit_sfu infra in
  let db := database infra in
  let rd := redis infra in
  lk_nodes lk * lk_storage_gb lk
  + (ns_storage_gb (db_primary db) + ns_storage_gb (db_replicas db) * ns_nodes (db_replicas db))
  + (ns_storage_gb (masters rd) * ns_nodes (masters rd)
     + ns_storage_gb (redis_replicas rd) * ns_nodes (redis_replicas rd))
  + sumQ (map (fun p => mon_storage (snd p)) (monitoring infra)).

(** [c] with other instance types for the database replicas and the Redis
    replicas. *)
Definition with_replica_types (c : Calc) (t_db t_redis : string) : Calc :=
  let infra := infrastructure c in
  let db := database infra in
  let rd := redis infra in
  {| pricing := pricing c;
     infrastructure := {|
       livekit_sfu := livekit_sfu infra;
       api_services := api_services infra;
       database := {| db_primary := db_primary db;
                      db_replicas := {| ns_nodes := ns_nodes (db_replicas db);
                                        ns_instance_type := t_db;
                                        ns_storage_gb := ns_storage_gb (db_replicas db) |};
                      pgbouncer := pgbouncer db |};
       redis := {| masters := masters rd;
                   redis_replicas := {| ns_nodes := ns_nodes (redis_replicas rd);
                                        ns_instance_type := t_redis;
                                        ns_storage_gb := ns_storage_gb (redis_replicas rd) |} |};
       gateway := gateway infra;
       monitoring := monitoring infra |};
     operational_costs := operational_costs c;
     bandwidth_requirements := bandwidth_requirements c;
     storage_requirements := storage_requirements c |}.

(** * Theorems *)

Lemma break_even_loop_spec (yp1 yp2 yp3 otc : Q) :
  forall n s cumulative,
  (1 <= s)%nat ->
  (s <> 1%nat -> cumulative == cumulative_profit_at yp1 yp2 yp3 otc (pred s)) ->
  (forall j, (1 <= j < s)%nat -> cumulative_profit_at yp1 yp2 yp3 otc j <= 0) ->
  match break_even_loop yp1 yp2 yp3 otc (seq s n) cumulative None with
  | Some m => (s <= m < s + n)%nat /\ 0 < cumulative_profit_at yp1 yp2 yp3 otc m /\
              forall j, (1 <= j < m)%nat -> cumulative_profit_at yp1 yp2 yp3 otc j <= 0
  | None => forall j, (1 <= j < s + n)%nat -> cumulative_profit_at yp1 yp2 yp3 otc j <= 0
  end.
Proof.
  induction n as [|n IH]; intros s cumulative Hs Hc Hbefore.
  - simpl. intros j Hj. apply Hbefore. lia.
  - cbn [seq break_even_loop].
    set (c' := if (s =? 1)%nat then month_profit yp1 yp2 yp3 s - otc
               else cumulative + month_profit yp1 yp2 yp3 s).
    assert (Hc' : c' == cumulative_profit_at yp1 yp2 yp3 otc s).
    { unfold c'. destruct s as [|[|s']]; [lia | reflexivity |].
      cbn [Nat.eqb]. rewrite Hc by lia. reflexivity. }
    destruct (Qlt_le_dec 0 c') as [Hpos | Hneg].
    + split; [lia | split].
      * rewrite <- Hc'. exact Hpos.
      * exact Hbefore.
    + assert (Hb' : forall j, (1 <= j < S s)%nat ->
                    cumulative_profit_at yp1 yp2 yp3 otc j <= 0).
      { intros j Hj. destruct (Nat.eq_dec j s) as [->|Hne].
        - rewrite <- Hc'. exact Hneg.
        - apply Hbefore. lia. }
      specialize (IH (S s) c' ltac:(lia) (fun _ => Hc') Hb').
      destruct (break_even_loop yp1 yp2 yp3 otc (seq (S s) n) c' None).
      * destruct IH as [Hr IH]. split; [lia | exact IH].
      * intros j Hj. apply IH. lia.
Qed.

(** C1: the break-even scan of [generate_roi_analysis] (used by
    [scenario_entry]) returns the first month in 1..36 whose cumulative
    profit is strictly positive, and [None] when there is none. *)
Theorem break_even_scan_first_positive (yp1 yp2 yp3 one_time_costs : Q) :
  match break_even_scan yp1 yp2 yp3 one_time_costs with
  | Some m => (1 <= m <= 36)%nat /\
              0 < cumulative_profit_at yp1 yp2 yp3 one_time_costs m /\
              forall k, (1 <= k < m)%nat ->
                        cumulative_profit_at yp1 yp2 yp3 one_time_costs k <= 0
  | None => forall k, (1 <= k <= 36)%nat ->
                      cumulative_profit_at yp1 yp2 yp3 one_time_costs k <= 0
  end.
Proof.
  pose proof (break_even_loop_spec yp1 yp2 yp3 one_time_costs 36 1 0
                ltac:(lia) ltac:(lia) ltac:(lia)) as H.
  unfold break_even_scan.
  destruct (break_even_loop yp1 yp2 yp3 one_time_costs (seq 1 36) 0 None).
  - destruct H as [Hr H]. split; [lia | exact H].
  - intros k Hk. apply H. lia.
Qed.

Example break_even_scan_month6 : break_even_scan 12 12 12 5 = Some 6%nat.
Proof. vm_compute. reflexivity. Qed.

Example break_even_scan_never : break_even_scan (-12) 0 0 0 = None.
Proof. vm_compute. reflexivity. Qed.

(** The constructor's bandwidth rates. *)
Definition init_bandwidth_pricing : BandwidthPricing :=
  {| first_100tb := 0.01; next_400tb := 0.009; above_500tb := 0.008 |}.

(** C2: with the constructor's rates, the monthly bandwidth cost returned
    by [calculate_bandwidth_cost] is the three-branch function of the total
    monthly terabytes it reports, whatever the bandwidth requirements. *)
Theorem calculate_bandwidth_cost_tiered (w : World)
  (Hrates : bandwidth (storage (pricing (calc w))) = init_bandwidth_pricing) :
  exists R t,
    fst (calculate_bandwidth_cost w) = Ok R /\
    pyget R "total_bandwidth_tb" = Some (PNum t) /\
    pyget R "monthly_cost" = Some (PNum (bandwidth_cost_spec t)).
Proof.
  unfold calculate_bandwidth_cost, bind, self, ret. cbn [fst].
  eexists; eexists; split; [reflexivity|]. split; [reflexivity|].
  cbn. rewrite Hrates. reflexivity.
Qed.

Lemma calculate_bandwidth_cost_tiered_witness :
  bandwidth (storage (pricing (calc (init_world 0)))) = init_bandwidth_pricing /\
  exists R t,
    fst (calculate_bandwidth_cost (init_world 0)) = Ok R /\
    pyget R "total_bandwidth_tb" = Some (PNum t) /\
    pyget R "monthly_cost" = Some (PNum (bandwidth_cost_spec t)).
Proof.
  split; [reflexivity|].
  apply calculate_bandwidth_cost_tiered. reflexivity.
Defined.

Lemma Qle_bool_true (a b : Q) : Qle_bool a b = true -> a <= b.
Proof. apply Qle_bool_iff. Qed.

Lemma Qle_bool_false (a b : Q) : Qle_bool a b = false -> b < a.
Proof.
  intro H. apply Qnot_le_lt. intro H'. apply Qle_bool_iff in H'. congruence.
Qed.

Ltac nonneg_product a b :=
  assert (0 <= a * b) by (apply Qmult_le_0_compat; lra).

(** C3: for non-negative rates (the constructor's are), the tiered
    bandwidth price is non-decreasing, and each branch meets the previous
    one at its lower boundary. *)
Theorem tiered_bandwidth_cost_monotone_continuous (p : BandwidthPricing)
  (H1 : 0 <= first_100tb p) (H2 : 0 <= next_400tb p) (H3 : 0 <= above_500tb p) :
  (forall t1 t2, 0 <= t1 -> t1 <= t2 ->
     tiered_bandwidth_cost p t1 <= tiered_bandwidth_cost p t2) /\
  bw_branch2 p 100 == bw_branch1 p 100 /\
  bw_branch3 p 500 == bw_branch2 p 500.
Proof.
  split; [|split; unfold bw_branch1, bw_branch2, bw_branch3; ring].
  intros t1 t2 H0 H12.
  unfold tiered_bandwidth_cost, bw_branch1, bw_branch2, bw_branch3.
  destruct (Qle_bool t1 100) eqn:E1; destruct (Qle_bool t2 100) eqn:E2;
  destruct (Qle_bool t1 500) eqn:E3; destruct (Qle_bool t2 500) eqn:E4;
  repeat match goal with
         | H : Qle_bool _ _ = true |- _ => apply Qle_bool_true in H
         | H : Qle_bool _ _ = false |- _ => apply Qle_bool_false in H
         end;
  cbv beta iota zeta;
  set (r1 := first_100tb p) in *; set (r2 := next_400tb p) in *;
  set (r3 := above_500tb p) in *;
  try nonneg_product (t2 - t1) r1; try nonneg_product (t2 - t1) r2;
  try nonneg_product (t2 - t1) r3; try nonneg_product (100 - t1) r1;
  try nonneg_product (t2 - 100) r2; try nonneg_product (500 - t1) r2;
  try nonneg_product (t2 - 500) r3;
  lra.
Qed.

Lemma tiered_bandwidth_cost_monotone_continuous_witness :
  (0 <= first_100tb init_bandwidth_pricing /\ 0 <= next_400tb init_bandwidth_pricing /\
   0 <= above_500tb init_bandwidth_pricing) /\
  ((forall t1 t2, 0 <= t1 -> t1 <= t2 ->
     tiered_bandwidth_cost init_bandwidth_pricing t1
       <= tiered_bandwidth_cost init_bandwidth_pricing t2) /\
   bw_branch2 init_bandwidth_pricing 100 == bw_branch1 init_bandwidth_pricing 100 /\
   bw_branch3 init_bandwidth_pricing 500 == bw_branch2 init_bandwidth_pricing 500).
Proof.
  split; [vm_compute; repeat split; discriminate|].
  apply tiered_bandwidth_cost_monotone_continuous; vm_compute; discriminate.
Defined.

Lemma calculate_instance_cost_run (w : World) (instance_type : string) (nodes : Q)
  (inst : InstanceSpec) :
  assoc instance_type (instances (pricing (calc w))) = Some inst ->
  calculate_instance_cost instance_type nodes w =
  (Ok (sdict [
    ("instance_type", PStr instance_type);
    ("nodes", PNum nodes);
    ("vcpu_total", PNum (nodes * vcpu inst));
    ("ram_total_gb", PNum (nodes * ram inst));
    ("monthly_cost", PNum (nodes * price inst));
    ("annual_cost", PNum (nodes * price inst * 12))]), w).
Proof.
  intro H. unfold calculate_instance_cost, bind, self, ret, lookup_or_raise.
  cbn beta iota. rewrite H. reflexivity.
Qed.

Lemma calculate_storage_cost_run (w : World) (storage_gb : Q) :
  calculate_storage_cost storage_gb w =
  (Ok (sdict [
    ("storage_gb", PNum storage_gb);
    ("monthly_cost", PNum (storage_gb * block_storage (storage (pricing (calc w)))));
    ("annual_cost",
       PNum (storage_gb * block_storage (storage (pricing (calc w))) * 12))]), w).
Proof. reflexivity. Qed.

(** C5: for a type of the price table, [calculate_instance_cost] prices
    [nodes] instances at [nodes] times the unit price, the year at 12
    months, and totals vCPUs and RAM per node; with the constructor's
    block-storage rate, [calculate_storage_cost] prices a GB at 0.10 a
    month and the year at 12 months. *)
Theorem instance_and_storage_cost_formulas (w : World) (instance_type : string)
  (inst : InstanceSpec) (nodes storage_gb : Q)
  (Hi : assoc instance_type (instances (pricing (calc w))) = Some inst)
  (Hb : block_storage (storage (pricing (calc w))) = 0.10) :
  (exists R, fst (calculate_instance_cost instance_type nodes w) = Ok R /\
     has_num R "monthly_cost" (nodes * price inst) /\
     has_num R "annual_cost" (12 * (nodes * price inst)) /\
     has_num R "vcpu_total" (nodes * vcpu inst) /\
     has_num R "ram_total_gb" (nodes * ram inst)) /\
  (exists S, fst (calculate_storage_cost storage_gb w) = Ok S /\
     has_num S "monthly_cost" (storage_gb * 0.10) /\
     has_num S "annual_cost" (12 * (storage_gb * 0.10))).
Proof.
  split.
  - rewrite (calculate_instance_cost_run w instance_type nodes inst Hi).
    eexists; split; [reflexivity|].
    repeat split; eexists; (split; [reflexivity | ring]).
  - rewrite calculate_storage_cost_run, Hb.
    eexists; split; [reflexivity|].
    repeat split; eexists; (split; [reflexivity | ring]).
Qed.

Lemma instance_and_storage_cost_formulas_witness :
  assoc "large" (instances (pricing (calc (init_world 0))))
    = Some {| vcpu := 16; ram := 64; price := 334 |} /\
  block_storage (storage (pricing (calc (init_world 0)))) = 0.10 /\
  ((exists R, fst (calculate_instance_cost "large" 25 (init_world 0)) = Ok R /\
     has_num R "monthly_cost" (25 * 334) /\ has_num R "annual_cost" (12 * (25 * 334)) /\
     has_num R "vcpu_total" (25 * 16) /\ has_num R "ram_total_gb" (25 * 64)) /\
   (exists S, fst (calculate_storage_cost 200 (init_world 0)) = Ok S /\
     has_num S "monthly_cost" (200 * 0.10) /\ has_num S "annual_cost" (12 * (200 * 0.10)))).
Proof.
  split; [reflexivity|]. split; [reflexivity|].
  exact (instance_and_storage_cost_formulas (init_world 0) "large"
           {| vcpu := 16; ram := 64; price := 334 |} 25 200 eq_refl eq_refl).
Defined.

(** ** No method writes to the tables *)

Create HintDb frames_db.

Lemma frames_ret {A} (a : A) : frames (ret a).
Proof. intro w. reflexivity. Qed.

Lemma frames_bind {A B} (m : M A) (f : A -> M B) :
  frames m -> (forall a, frames (f a)) -> frames (bind m f).
Proof.
  intros Hm Hf w. unfold bind. specialize (Hm w).
  destruct (m w) as [[a|e] w']; simpl in *.
  - rewrite Hf. exact Hm.
  - exact Hm.
Qed.

Lemma frames_self : frames self.
Proof. intro w. reflexivity. Qed.

Lemma frames_now : frames now.
Proof. intro w. reflexivity. Qed.

Lemma frames_raise {A} (e : exn) : frames (@raise A e).
Proof. intro w. reflexivity. Qed.

Lemma frames_lookup_or_raise {A} (k : string) (o : option A) :
  frames (lookup_or_raise k o).
Proof. destruct o; intro w; reflexivity. Qed.

Lemma frames_getq (x : pyval) (k : string) : frames (getq x k).
Proof. unfold getq. destruct (pyget x k) as [[]|]; intro w; reflexivity. Qed.

Lemma frames_get_list (x : pyval) (k : string) : frames (get_list x k).
Proof. unfold get_list. destruct (pyget x k) as [[]|]; intro w; reflexivity. Qed.

Lemma frames_component_applies (x : pyval) (l : list string) :
  frames (component_applies x l).
Proof. unfold component_applies. destruct (pyget x "component") as [[]|]; intro w; reflexivity. Qed.

#[export] Hint Resolve frames_ret frames_self frames_now frames_raise
  frames_lookup_or_raise frames_getq frames_get_list frames_component_applies
  : frames_db.

Ltac frames_steps :=
  cbv zeta;
  repeat match goal with
         | |- frames (bind _ _) => apply frames_bind; [ | intro; cbv zeta ]
         | |- frames (match ?x with _ => _ end) => destruct x
         | |- frames _ => solve [auto with frames_db]
         end.

Lemma frames_calculate_instance_cost (t : string) (n : Q) :
  frames (calculate_instance_cost t n).
Proof. unfold calculate_instance_cost. frames_steps. Qed.

Lemma frames_calculate_storage_cost (g : Q) : frames (calculate_storage_cost g).
Proof. unfold calculate_storage_cost. frames_steps. Qed.

#[export] Hint Resolve frames_calculate_instance_cost frames_calculate_storage_cost
  : frames_db.

Lemma frames_api_services_loop (config : list (string * ServiceConfig)) :
  forall services total, frames (api_services_loop config services total).
Proof.
  induction config as [|[n sc] rest IH]; intros; cbn [api_services_loop];
  frames_steps.
Qed.

Lemma frames_monitoring_loop (config : list (string * MonitoringConfig)) :
  forall comps t s, frames (monitoring_loop config comps t s).
Proof.
  induction config as [|[n mc] rest IH]; intros; cbn [monitoring_loop];
  frames_steps.
Qed.

Lemma frames_sum_total_monthly (l : list pyval) :
  forall acc, frames (sum_total_monthly l acc).
Proof. induction l; intros; cbn [sum_total_monthly]; frames_steps. Qed.

Lemma frames_applicable_cost_loop (l : list pyval) (a : list string) :
  forall acc, frames (applicable_cost_loop l a acc).
Proof. induction l; intros; cbn [applicable_cost_loop]; frames_steps. Qed.

Lemma frames_optimization_loop (opts : list (string * Optimization)) (l : list pyval) :
  forall t d, frames (optimization_loop opts l t d).
Proof.
  induction opts as [|[n o] rest IH]; intros; cbn [optimization_loop]; frames_steps.
  apply frames_applicable_cost_loop.
Qed.

Lemma frames_instance_of (t : string) : frames (instance_of t).
Proof. unfold instance_of. frames_steps. Qed.

#[export] Hint Resolve frames_api_services_loop frames_monitoring_loop
  frames_sum_total_monthly frames_applicable_cost_loop frames_optimization_loop
  frames_instance_of : frames_db.

Lemma frames_services_resources (ss : list (string * ServiceConfig)) :
  forall v r, frames (services_resources ss v r).
Proof. induction ss as [|[n sc] rest IH]; intros; cbn [services_resources]; frames_steps. Qed.

Lemma frames_monitoring_resources (ms : list (string * MonitoringConfig)) :
  forall v r g, frames (monitoring_resources ms v r g).
Proof. induction ms as [|[n mc] rest IH]; intros; cbn [monitoring_resources]; frames_steps. Qed.

#[export] Hint Resolve frames_services_resources frames_monitoring_resources : frames_db.

Lemma frames_calculate_livekit_sfu_cost : frames calculate_livekit_sfu_cost.
Proof. unfold calculate_livekit_sfu_cost. frames_steps. Qed.
Lemma frames_calculate_api_services_cost : frames calculate_api_services_cost.
Proof. unfold calculate_api_services_cost. frames_steps. Qed.
Lemma frames_calculate_database_cost : frames calculate_database_cost.
Proof. unfold calculate_database_cost. frames_steps. Qed.
Lemma frames_calculate_redis_cost : frames calculate_redis_cost.
Proof. unfold calculate_redis_cost. frames_steps. Qed.
Lemma frames_calculate_gateway_cost : frames calculate_gateway_cost.
Proof. unfold calculate_gateway_cost. frames_steps. Qed.
Lemma frames_calculate_monitoring_cost : frames calculate_monitoring_cost.
Proof. unfold calculate_monitoring_cost. frames_steps. Qed.
Lemma frames_calculate_bandwidth_cost : frames calculate_bandwidth_cost.
Proof. unfold calculate_bandwidth_cost. frames_steps. Qed.
Lemma frames_calculate_storage_requirements_cost :
  frames calculate_storage_requirements_cost.
Proof. unfold calculate_storage_requirements_cost. frames_steps. Qed.
Lemma frames_calculate_operational_costs : frames calculate_operational_costs.
Proof. unfold calculate_operational_costs. frames_steps. Qed.
Lemma frames_calculate_one_time_costs : frames calculate_one_time_costs.
Proof. unfold calculate_one_time_costs. frames_steps. Qed.

#[export] Hint Resolve frames_calculate_livekit_sfu_cost
  frames_calculate_api_services_cost frames_calculate_database_cost
  frames_calculate_redis_cost frames_calculate_gateway_cost
  frames_calculate_monitoring_cost frames_calculate_bandwidth_cost
  frames_calculate_storage_requirements_cost frames_calculate_operational_costs
  frames_calculate_one_time_costs : frames_db.

Lemma frames_calculate_total_infrastructure_cost :
  frames calculate_total_infrastructure_cost.
Proof. unfold calculate_total_infrastructure_cost. frames_steps. Qed.

Lemma frames_scenario_entry (s : Scenario) (burn : Q) : frames (scenario_entry s burn).
Proof. unfold scenario_entry. frames_steps. Qed.

#[export] Hint Resolve frames_calculate_total_infrastructure_cost frames_scenario_entry
  : frames_db.

Lemma frames_roi_loop (ss : list (string * Scenario)) :
  forall burn acc, frames (roi_loop ss burn acc).
Proof. induction ss as [|[n s] rest IH]; intros; cbn [roi_loop]; frames_steps. Qed.

#[export] Hint Resolve frames_roi_loop : frames_db.

Lemma frames_generate_roi_analysis : frames generate_roi_analysis.
Proof. unfold generate_roi_analysis. frames_steps. Qed.
Lemma frames_generate_cost_optimization_analysis :
  frames generate_cost_optimization_analysis.
Proof. unfold generate_cost_optimization_analysis. frames_steps. Qed.
Lemma frames_generate_resource_summary : frames generate_resource_summary.
Proof. unfold generate_resource_summary. frames_steps. Qed.

#[export] Hint Resolve frames_generate_roi_analysis
  frames_generate_cost_optimization_analysis frames_generate_resource_summary
  : frames_db.

Lemma frames_generate_complete_report : frames generate_complete_report.
Proof. unfold generate_complete_report. frames_steps. Qed.

Lemma run_method_frames (m : method) : frames (run_method m).
Proof.
  destruct m; cbn [run_method];
  first [ apply frames_generate_complete_report | auto with frames_db ].
Qed.

Lemma run_methods_calc (ms : list method) :
  forall w, calc (run_methods ms w) = calc w.
Proof.
  induction ms as [|m rest IH]; intro w; cbn [run_methods]; [reflexivity|].
  rewrite IH. apply run_method_frames.
Qed.

(** C6: no method of the calculator, [generate_complete_report] included,
    changes its tables: after any sequence of calls, the [pricing],
    [infrastructure], [operational_costs], [bandwidth_requirements] and
    [storage_requirements] tables are those it started with. *)
Theorem methods_preserve_configuration (ms : list method) (w : World) :
  pricing (calc (run_methods ms w)) = pricing (calc w) /\
  infrastructure (calc (run_methods ms w)) = infrastructure (calc w) /\
  operational_costs (calc (run_methods ms w)) = operational_costs (calc w) /\
  bandwidth_requirements (calc (run_methods ms w)) = bandwidth_requirements (calc w) /\
  storage_requirements (calc (run_methods ms w)) = storage_requirements (calc w).
Proof. rewrite run_methods_calc. repeat split. Qed.

(** ** No calculation reads the clock *)

Create HintDb indep_db.

Lemma indep_ret {A} (a : A) : clock_indep (ret a).
Proof. intros w1 w2 E. split; [reflexivity | exact E]. Qed.

Lemma indep_bind {A B} (m : M A) (f : A -> M B) :
  clock_indep m -> (forall a, clock_indep (f a)) -> clock_indep (bind m f).
Proof.
  intros Hm Hf w1 w2 E. unfold bind.
  destruct (Hm w1 w2 E) as [Hr Hc].
  destruct (m w1) as [r1 w1'], (m w2) as [r2 w2']; cbn [fst snd] in *.
  subst r2. destruct r1 as [a|e].
  - apply Hf. exact Hc.
  - split; [reflexivity | exact Hc].
Qed.

Lemma indep_self : clock_indep self.
Proof. intros w1 w2 E. cbn. rewrite E. split; reflexivity. Qed.

Lemma indep_raise {A} (e : exn) : clock_indep (@raise A e).
Proof. intros w1 w2 E. split; [reflexivity | exact E]. Qed.

Lemma indep_lookup_or_raise {A} (k : string) (o : option A) :
  clock_indep (lookup_or_raise k o).
Proof. destruct o; [apply indep_ret | apply indep_raise]. Qed.

Lemma indep_getq (x : pyval) (k : string) : clock_indep (getq x k).
Proof.
  unfold getq. destruct (pyget x k) as [[]|];
  first [apply indep_ret | apply indep_raise].
Qed.

Lemma indep_get_list (x : pyval) (k : string) : clock_indep (get_list x k).
Proof.
  unfold get_list. destruct (pyget x k) as [[]|];
  first [apply indep_ret | apply indep_raise].
Qed.

Lemma indep_component_applies (x : pyval) (l : list string) :
  clock_indep (component_applies x l).
Proof.
  unfold component_applies. destruct (pyget x "component") as [[]|];
  first [apply indep_ret | apply indep_raise].
Qed.

#[export] Hint Resolve indep_ret indep_self indep_raise
  indep_lookup_or_raise indep_getq indep_get_list indep_component_applies
  : indep_db.

Ltac indep_steps :=
  cbv zeta;
  repeat match goal with
         | |- clock_indep (bind _ _) => apply indep_bind; [ | intro; cbv zeta ]
         | |- clock_indep (match ?x with _ => _ end) => destruct x
         | |- clock_indep _ => solve [auto with indep_db]
         end.

Lemma indep_calculate_instance_cost (t : string) (n : Q) :
  clock_indep (calculate_instance_cost t n).
Proof. unfold calculate_instance_cost. indep_steps. Qed.

Lemma indep_calculate_storage_cost (g : Q) : clock_indep (calculate_storage_cost g).
Proof. unfold calculate_storage_cost. indep_steps. Qed.

#[export] Hint Resolve indep_calculate_instance_cost indep_calculate_storage_cost
  : indep_db.

Lemma indep_api_services_loop (config : list (string * ServiceConfig)) :
  forall services total, clock_indep (api_services_loop config services total).
Proof.
  induction config as [|[n sc] rest IH]; intros; cbn [api_services_loop];
  indep_steps.
Qed.

Lemma indep_monitoring_loop (config : list (string * MonitoringConfig)) :
  forall comps t s, clock_indep (monitoring_loop config comps t s).
Proof.
  induction config as [|[n mc] rest IH]; intros; cbn [monitoring_loop];
  indep_steps.
Qed.

Lemma indep_sum_total_monthly (l : list pyval) :
  forall acc, clock_indep (sum_total_monthly l acc).
Proof. induction l; intros; cbn [sum_total_monthly]; indep_steps. Qed.

Lemma indep_applicable_cost_loop (l : list pyval) (a : list string) :
  forall acc, clock_indep (applicable_cost_loop l a acc).
Proof. induction l; intros; cbn [applicable_cost_loop]; indep_steps. Qed.

Lemma indep_optimization_loop (opts : list (string * Optimization)) (l : list pyval) :
  forall t d, clock_indep (optimization_loop opts l t d).
Proof.
  induction opts as [|[n o] rest IH]; intros; cbn [optimization_loop]; indep_steps.
  apply indep_applicable_cost_loop.
Qed.

Lemma indep_instance_of (t : string) : clock_indep (instance_of t).
Proof. unfold instance_of. indep_steps. Qed.

#[export] Hint Resolve indep_api_services_loop indep_monitoring_loop
  indep_sum_total_monthly indep_applicable_cost_loop indep_optimization_loop
  indep_instance_of : indep_db.

Lemma indep_services_resources (ss : list (string * ServiceConfig)) :
  forall v r, clock_indep (services_resources ss v r).
Proof. induction ss as [|[n sc] rest IH]; intros; cbn [services_resources]; indep_steps. Qed.

Lemma indep_monitoring_resources (ms : list (string * MonitoringConfig)) :
  forall v r g, clock_indep (monitoring_resources ms v r g).
Proof. induction ms as [|[n mc] rest IH]; intros; cbn [monitoring_resources]; indep_steps. Qed.

#[export] Hint Resolve indep_services_resources indep_monitoring_resources : indep_db.

Lemma indep_calculate_livekit_sfu_cost : clock_indep calculate_livekit_sfu_cost.
Proof. unfold calculate_livekit_sfu_cost. indep_steps. Qed.
Lemma indep_calculate_api_services_cost : clock_indep calculate_api_services_cost.
Proof. unfold calculate_api_services_cost. indep_steps. Qed.
Lemma indep_calculate_database_cost : clock_indep calculate_database_cost.
Proof. unfold calculate_database_cost. indep_steps. Qed.
Lemma indep_calculate_redis_cost : clock_indep calculate_redis_cost.
Proof. unfold calculate_redis_cost. indep_steps. Qed.
Lemma indep_calculate_gateway_cost : clock_indep calculate_gateway_cost.
Proof. unfold calculate_gateway_cost. indep_steps. Qed.
Lemma indep_calculate_monitoring_cost : clock_indep calculate_monitoring_cost.
Proof. unfold calculate_monitoring_cost. indep_steps. Qed.
Lemma indep_calculate_bandwidth_cost : clock_indep calculate_bandwidth_cost.
Proof. unfold calculate_bandwidth_cost. indep_steps. Qed.
Lemma indep_calculate_storage_requirements_cost :
  clock_indep calculate_storage_requirements_cost.
Proof. unfold calculate_storage_requirements_cost. indep_steps. Qed.
Lemma indep_calculate_operational_costs : clock_indep calculate_operational_costs.
Proof. unfold calculate_operational_costs. indep_steps. Qed.
Lemma indep_calculate_one_time_costs : clock_indep calculate_one_time_costs.
Proof. unfold calculate_one_time_costs. indep_steps. Qed.

#[export] Hint Resolve indep_calculate_livekit_sfu_cost
  indep_calculate_api_services_cost indep_calculate_database_cost
  indep_calculate_redis_cost indep_calculate_gateway_cost
  indep_calculate_monitoring_cost indep_calculate_bandwidth_cost
  indep_calculate_storage_requirements_cost indep_calculate_operational_costs
  indep_calculate_one_time_costs : indep_db.

Lemma indep_calculate_total_infrastructure_cost :
  clock_indep calculate_total_infrastructure_cost.
Proof. unfold calculate_total_infrastructure_cost. indep_steps. Qed.

Lemma indep_scenario_entry (s : Scenario) (burn : Q) : clock_indep (scenario_entry s burn).
Proof. unfold scenario_entry. indep_steps. Qed.

#[export] Hint Resolve indep_calculate_total_infrastructure_cost indep_scenario_entry
  : indep_db.

Lemma indep_roi_loop (ss : list (string * Scenario)) :
  forall burn acc, clock_indep (roi_loop ss burn acc).
Proof. induction ss as [|[n s] rest IH]; intros; cbn [roi_loop]; indep_steps. Qed.

#[export] Hint Resolve indep_roi_loop : indep_db.

Lemma indep_generate_roi_analysis : clock_indep generate_roi_analysis.
Proof. unfold generate_roi_analysis. indep_steps. Qed.
Lemma indep_generate_cost_optimization_analysis :
  clock_indep generate_cost_optimization_analysis.
Proof. unfold generate_cost_optimization_analysis. indep_steps. Qed.
Lemma indep_generate_resource_summary : clock_indep generate_resource_summary.
Proof. unfold generate_resource_summary. indep_steps. Qed.

#[export] Hint Resolve indep_generate_roi_analysis
  indep_generate_cost_optimization_analysis indep_generate_resource_summary
  : indep_db.


Lemma run_method_clock_indep (m : method) :
  reads_clock m = false -> clock_indep (run_method m).
Proof.
  destruct m; cbn [run_method reads_clock]; intro H;
  first [ discriminate H | auto with indep_db ].
Qed.

(** C7: every calculation except [generate_complete_report] (the one that
    reads the clock) gives the same result on two calculators with the same
    tables; so the infrastructure total computed after any sequence of
    calls, report generation included, is the one computed before. *)
Theorem calculations_deterministic :
  (forall m w1 w2, reads_clock m = false -> calc w1 = calc w2 ->
     fst (run_method m w1) = fst (run_method m w2)) /\
  (forall ms w, fst (calculate_total_infrastructure_cost (run_methods ms w))
                = fst (calculate_total_infrastructure_cost w)).
Proof.
  split.
  - intros m w1 w2 Hm E. apply (run_method_clock_indep m Hm w1 w2 E).
  - intros ms w.
    apply (run_method_clock_indep CalculateTotalInfrastructureCost eq_refl).
    apply run_methods_calc.
Qed.

(** C4 (evaluated on the constructor's tables): the bandwidth component
    carries its cost under [monthly_cost] and has no [total_monthly], so
    [comp.get('total_monthly', 0)] counts it as 0; [infrastructure_monthly]
    is the sum of the seven other components' costs, not of all eight. *)
Theorem total_infrastructure_drops_bandwidth :
  match fst (calculate_total_infrastructure_cost (init_world 0)) with
  | Ok R =>
      match sub R "components" with
      | PList comps =>
          length comps = 8%nat /\
          pyget (nth 6 comps PNone) "component" = Some (PStr "Bandwidth") /\
          pyget (nth 6 comps PNone) "total_monthly" = None /\
          0 < component_cost (nth 6 comps PNone) /\
          has_num R "infrastructure_monthly"
            (sumQ (map component_cost comps) - component_cost (nth 6 comps PNone)) /\
          ~ has_num R "infrastructure_monthly" (sumQ (map component_cost comps))
      | _ => False
      end
  | Err _ => False
  end.
Proof.
  vm_compute.
  split; [reflexivity|]. split; [reflexivity|]. split; [reflexivity|].
  split; [reflexivity|]. split.
  - eexists. split; [reflexivity|]. vm_compute. reflexivity.
  - intros [x [Hx Heq]]. injection Hx as <-. vm_compute in Heq. discriminate Heq.
Qed.

(** C8: the report [main] writes (the constructor's tables, any clock) is a
    dict with the timestamp, the infrastructure costs with their list of
    eight components, the operational and one-time costs, the ROI analysis
    with its three scenarios, the cost-optimisation breakdown and the
    resource summary. *)
Theorem complete_report_structure (t : Z) :
  match report_result t with
  | Ok R =>
      dict_keys R = map KStr ["timestamp"; "infrastructure_costs";
                              "operational_costs"; "one_time_costs"; "roi_analysis";
                              "cost_optimization"; "resource_summary"] /\
      dict_keys (sub R "infrastructure_costs")
        = map KStr ["components"; "infrastructure_monthly"; "contingency_monthly";
                    "total_monthly"; "total_annual"] /\
      (exists comps, sub (sub R "infrastructure_costs") "components" = PList comps /\
                     length comps = 8%nat) /\
      dict_keys (sub (sub R "roi_analysis") "scenarios")
        = map KStr ["conservative"; "moderate"; "aggressive"] /\
      dict_keys (sub R "cost_optimization")
        = map KStr ["base_monthly_cost"; "optimizations"; "total_monthly_savings";
                    "optimized_monthly_cost"; "total_annual_savings"] /\
      dict_keys (sub R "resource_summary")
        = map KStr ["total_vcpu"; "total_ram_gb"; "total_storage_gb";
                    "participant_capacity"; "meetings_capacity";
                    "cost_per_participant_monthly"; "cost_per_meeting_monthly"]
  | Err _ => False
  end.
Proof.
  vm_compute.
  repeat split; try reflexivity.
  eexists. split; reflexivity.
Qed.

(** ** ROI scenarios *)

Lemma bind_ok_frames {A B} (m : M A) (f : A -> M B) (w : World) (b : B) (w' : World) :
  bind m f w = (Ok b, w') -> frames m ->
  exists a w1, m w = (Ok a, w1) /\ calc w1 = calc w /\ f a w1 = (Ok b, w').
Proof.
  unfold bind. intros H F. specialize (F w).
  destruct (m w) as [[a|e] w1]; [|discriminate].
  exists a, w1. auto.
Qed.

Lemma dict_store_lookup (k k' : pykey) (v E : pyval) (d : list (pykey * pyval)) :
  dict_lookup k (dict_store k' v d) = Some E -> E = v \/ dict_lookup k d = Some E.
Proof.
  induction d as [|[k0 v0] d IH]; cbn [dict_store dict_lookup].
  - destruct (pykey_eqb k k'); intro H; [left; congruence | discriminate].
  - destruct (pykey_eqb k' k0); cbn [dict_lookup].
    + destruct (pykey_eqb k k0); intro H; [left; congruence | right; exact H].
    + destruct (pykey_eqb k k0); intro H; [right; exact H | apply IH; exact H].
Qed.

#[local] Opaque break_even_scan yearly_profit yearly_revenue.

Lemma scenario_entry_ok (w : World) (s : Scenario) (burn : Q) (E : pyval) (w' : World) :
  scenario_entry s burn w = (Ok E, w') -> profit_entry_ok (calc w) E.
Proof.
  unfold scenario_entry, calculate_one_time_costs, bind, self, ret, lookup_or_raise.
  cbn beta iota zeta.
  destruct (assoc "backend_dev" _) as [bd|] eqn:Hbd; [|discriminate].
  destruct (assoc "devops" _) as [dv|] eqn:Hdv; [|discriminate].
  cbn. intro H. injection H as <- _.
  exists bd, dv, (yearly_profit s burn 1), (yearly_profit s burn 2),
         (yearly_profit s burn 3).
  split; [exact Hbd|]. split; [exact Hdv|]. split; [reflexivity|].
  eexists. split; [reflexivity|]. cbn [fold_left]. ring.
Qed.

Lemma roi_loop_ok (c : Calc) (ss : list (string * Scenario)) (burn : Q) :
  forall acc w R w',
  calc w = c ->
  (forall k E, dict_lookup k acc = Some E -> profit_entry_ok c E) ->
  roi_loop ss burn acc w = (Ok R, w') ->
  forall k E, dict_lookup k R = Some E -> profit_entry_ok c E.
Proof.
  induction ss as [|[name s] rest IH]; intros acc w R w' Hc Hacc Hrun;
    cbn [roi_loop] in Hrun.
  - unfold ret in Hrun. injection Hrun as <- _. exact Hacc.
  - apply bind_ok_frames in Hrun as (E0 & w1 & H1 & Hc1 & H2);
      [| apply frames_scenario_entry].
    pose proof (scenario_entry_ok _ _ _ _ _ H1) as HE0. rewrite Hc in HE0.
    apply (IH (dict_store (KStr name) E0 acc) w1 R w'); [congruence | | exact H2].
    intros k E HkE. apply dict_store_lookup in HkE as [-> | HkE].
    + exact HE0.
    + exact (Hacc k E HkE).
Qed.

#[local] Transparent break_even_scan yearly_profit yearly_revenue.

(** C9: in the ROI analysis, every scenario's [total_3_year_profit] is
    [yearly_profit[1] + yearly_profit[2] + yearly_profit[3]] minus the
    one-time cost (four months of the team's salaries plus 50000, 30000
    and 50000). *)
Theorem roi_total_3_year_profit (w : World) (R : pyval)
  (Hok : fst (generate_roi_analysis w) = Ok R) :
  exists d, sub R "scenarios" = PDict d /\
    forall k E, dict_lookup k d = Some E -> profit_entry_ok (calc w) E.
Proof.
  destruct (generate_roi_analysis w) as [r w'] eqn:Hg. cbn [fst] in Hok. subst r.
  unfold generate_roi_analysis in Hg.
  apply bind_ok_frames in Hg as (op & w1 & _ & E1 & Hg); [|auto with frames_db].
  apply bind_ok_frames in Hg as (inf & w2 & _ & E2 & Hg); [|auto with frames_db].
  apply bind_ok_frames in Hg as (o & w3 & _ & E3 & Hg); [|auto with frames_db].
  apply bind_ok_frames in Hg as (i & w4 & _ & E4 & Hg); [|auto with frames_db].
  cbv zeta in Hg.
  apply bind_ok_frames in Hg as (roi & w5 & Hroi & E5 & Hg); [|auto with frames_db].
  apply bind_ok_frames in Hg as (one & w6 & _ & E6 & Hg); [|auto with frames_db].
  unfold ret in Hg. injection Hg as <- _.
  exists roi. split; [reflexivity|].
  eapply roi_loop_ok; [| | exact Hroi]; [congruence |].
  intros k E H. discriminate H.
Qed.

Lemma roi_total_3_year_profit_witness :
  match fst (generate_roi_analysis (init_world 0)) with
  | Ok R =>
      fst (generate_roi_analysis (init_world 0)) = Ok R /\
      exists d, sub R "scenarios" = PDict d /\
        forall k E, dict_lookup k d = Some E -> profit_entry_ok (calc (init_world 0)) E
  | Err _ => False
  end.
Proof.
  destruct (fst (generate_roi_analysis (init_world 0))) as [R|e] eqn:E.
  - split; [reflexivity|]. exact (roi_total_3_year_profit (init_world 0) R E).
  - vm_compute in E. discriminate E.
Defined.

(** ** The monitoring stack *)

Ltac close_monitoring_step IH :=
  match goal with
  | |- exists _ _ _, monitoring_loop _ ?c ?t1 ?s1 _ = _ /\ _ =>
      destruct (IH c t1 s1) as (comps' & t' & s' & Hrun & Ht & Hs);
      exists comps', t', s'; split; [exact Hrun|];
      rewrite Ht, Hs; unfold sumQ in *; split; ring
  end.

Lemma monitoring_loop_run (w : World) (ms : list (string * MonitoringConfig)) :
  Forall (fun p => mon_priced (calc w) (snd p)) ms ->
  forall comps t s, exists comps' t' s',
    monitoring_loop ms comps t s w = (Ok (comps', t', s'), w) /\
    t' == t + sumQ (map (fun p => mon_instance_cost (calc w) (snd p)) ms) /\
    s' == s + sumQ (map (fun p => mon_storage_cost (calc w) (snd p)) ms).
Proof.
  induction 1 as [|[name mc] rest Hp Hrest IH]; intros comps t s;
    cbn [monitoring_loop].
  - exists comps, t, s. split; [reflexivity|]. cbn. split; ring.
  - unfold mon_priced in Hp. cbn [snd] in Hp.
    cbn [map sumQ fold_right snd].
    unfold mon_instance_cost at 1, mon_storage_cost at 1.
    destruct (mon_nodes mc) as [n|] eqn:Hn.
    + destruct (Hp n eq_refl) as (ty & i & Hty & Hi). rewrite Hty, Hi.
      unfold bind at 1 3, lookup_or_raise. cbn beta iota.
      unfold bind at 1. unfold ret at 1. cbn beta iota.
      rewrite (calculate_instance_cost_run w ty n i Hi).
      cbn beta iota.
      destruct (mon_storage_gb mc) as [g|] eqn:Hg; cbn; unfold ret; cbn;
        close_monitoring_step IH.
    + unfold bind at 1 2. unfold ret at 1. cbn beta iota.
      destruct (mon_storage_gb mc) as [g|] eqn:Hg; cbn; unfold ret; cbn;
        close_monitoring_step IH.
Qed.

(** C10: [calculate_monitoring_cost]'s [total_monthly] is the sum of the
    components' instance costs plus, once per component, its [storage_gb]
    at the block-storage rate (not multiplied by its node count); the
    LiveKit SFU and Redis storage, by contrast, is [storage_gb] times the
    node count at that rate. *)
Theorem monitoring_storage_once_per_component (w : World) (i_lk i_m i_r : InstanceSpec)
  (Hmon : Forall (fun p => mon_priced (calc w) (snd p))
                 (monitoring (infrastructure (calc w))))
  (Hlk : assoc (lk_instance_type (livekit_sfu (infrastructure (calc w))))
               (instances (pricing (calc w))) = Some i_lk)
  (Hm : assoc (ns_instance_type (masters (redis (infrastructure (calc w)))))
              (instances (pricing (calc w))) = Some i_m)
  (Hr : assoc (ns_instance_type (redis_replicas (redis (infrastructure (calc w)))))
              (instances (pricing (calc w))) = Some i_r) :
  let c := calc w in
  let rate := block_storage (storage (pricing c)) in
  let ms := monitoring (infrastructure c) in
  let lk := livekit_sfu (infrastructure c) in
  let rd := redis (infrastructure c) in
  (exists R, fst (calculate_monitoring_cost w) = Ok R /\
     has_num R "total_monthly"
       (sumQ (map (fun p => mon_instance_cost c (snd p)) ms)
        + sumQ (map (fun p => mon_storage_cost c (snd p)) ms))) /\
  (exists L, fst (calculate_livekit_sfu_cost w) = Ok L /\
     has_num (sub L "storage_cost") "monthly_cost"
       (lk_storage_gb lk * lk_nodes lk * rate)) /\
  (exists D, fst (calculate_redis_cost w) = Ok D /\
     has_num (sub D "storage_cost") "monthly_cost"
       ((ns_storage_gb (masters rd) * ns_nodes (masters rd)
         + ns_storage_gb (redis_replicas rd) * ns_nodes (redis_replicas rd)) * rate)).
Proof.
  cbv zeta. split; [|split].
  - unfold calculate_monitoring_cost, bind at 1, self. cbn beta iota.
    destruct (monitoring_loop_run w _ Hmon [] 0 0)
      as (comps' & t' & s' & Hrun & Ht & Hs).
    unfold bind. rewrite Hrun. cbn.
    eexists. split; [reflexivity|]. eexists. split; [reflexivity|].
    rewrite Ht, Hs. unfold sumQ in *. ring.
  - unfold calculate_livekit_sfu_cost, bind at 1, self. cbn beta iota zeta.
    unfold bind at 1. rewrite (calculate_instance_cost_run w _ _ i_lk Hlk).
    cbn. eexists. split; [reflexivity|]. eexists. split; reflexivity.
  - unfold calculate_redis_cost, bind at 1, self. cbn beta iota zeta.
    unfold bind at 1. rewrite (calculate_instance_cost_run w _ _ i_m Hm).
    cbn beta iota.
    unfold bind at 1. rewrite (calculate_instance_cost_run w _ _ i_r Hr).
    cbn. eexists. split; [reflexivity|]. eexists. split; reflexivity.
Qed.

Lemma monitoring_storage_once_per_component_witness :
  Forall (fun p => mon_priced (calc (init_world 0)) (snd p))
         (monitoring (infrastructure (calc (init_world 0)))) /\
  (let c := calc (init_world 0) in
   let rate := block_storage (storage (pricing c)) in
   let ms := monitoring (infrastructure c) in
   let lk := livekit_sfu (infrastructure c) in
   let rd := redis (infrastructure c) in
   (exists R, fst (calculate_monitoring_cost (init_world 0)) = Ok R /\
      has_num R "total_monthly"
        (sumQ (map (fun p => mon_instance_cost c (snd p)) ms)
         + sumQ (map (fun p => mon_storage_cost c (snd p)) ms))) /\
   (exists L, fst (calculate_livekit_sfu_cost (init_world 0)) = Ok L /\
      has_num (sub L "storage_cost") "monthly_cost"
        (lk_storage_gb lk * lk_nodes lk * rate)) /\
   (exists D, fst (calculate_redis_cost (init_world 0)) = Ok D /\
      has_num (sub D "storage_cost") "monthly_cost"
        ((ns_storage_gb (masters rd) * ns_nodes (masters rd)
          + ns_storage_gb (redis_replicas rd) * ns_nodes (redis_replicas rd)) * rate))).
Proof.
  assert (Hmon : Forall (fun p => mon_priced (calc (init_world 0)) (snd p))
                        (monitoring (infrastructure (calc (init_world 0))))).
  { repeat constructor; intros n Hn; vm_compute in Hn; injection Hn as <-;
      eexists; eexists; split; reflexivity. }
  split; [exact Hmon|].
  exact (monitoring_storage_once_per_component (init_world 0)
           {| vcpu := 16; ram := 64; price := 334 |}
           {| vcpu := 8; ram := 32; price := 167 |}
           {| vcpu := 8; ram := 32; price := 167 |}
           Hmon eq_refl eq_refl eq_refl).
Defined.

(** ** Results of the methods *)

Lemma returns_bind {A B} (m : M A) (f : A -> M B) (Q : A -> Prop) (P : B -> Prop) :
  returns m Q -> (forall a, Q a -> returns (f a) P) -> returns (bind m f) P.
Proof.
  intros Hm Hf w b w'. unfold bind.
  destruct (m w) as [[a|e] w1] eqn:E; [|discriminate].
  apply (Hf a (Hm w a w1 E)).
Qed.

Lemma returns_ret {A} (a : A) (P : A -> Prop) : P a -> returns (ret a) P.
Proof. intros H w a' w' E. injection E as <- _. exact H. Qed.

Lemma returns_raise {A} (e : exn) (P : A -> Prop) : returns (raise e) P.
Proof. intros w a w' E. discriminate E. Qed.

Lemma returns_any {A} (m : M A) : returns m (fun _ => True).
Proof. intros w a w' _. exact I. Qed.

Ltac returns_steps :=
  cbv zeta;
  repeat match goal with
         | |- returns (bind _ _) _ =>
             eapply returns_bind; [apply returns_any | intros ? _; cbv zeta]
         | |- returns (match ?x with _ => _ end) _ => destruct x
         | |- returns (raise _) _ => apply returns_raise
         | |- returns (ret _) _ => apply returns_ret
         end.

Ltac shape_done :=
  split; [reflexivity | cbn; first [reflexivity | eexists; reflexivity]].

Lemma livekit_shape : returns calculate_livekit_sfu_cost (component_shape "LiveKit SFU" true).
Proof. unfold calculate_livekit_sfu_cost. returns_steps. shape_done. Qed.
Lemma api_services_shape :
  returns calculate_api_services_cost (component_shape "API Services" true).
Proof. unfold calculate_api_services_cost. returns_steps. shape_done. Qed.
Lemma database_shape :
  returns calculate_database_cost (component_shape "Database Layer" true).
Proof. unfold calculate_database_cost. returns_steps. shape_done. Qed.
Lemma redis_shape : returns calculate_redis_cost (component_shape "Redis Cluster" true).
Proof. unfold calculate_redis_cost. returns_steps. shape_done. Qed.
Lemma gateway_shape : returns calculate_gateway_cost (component_shape "API Gateway" true).
Proof. unfold calculate_gateway_cost. returns_steps. shape_done. Qed.
Lemma monitoring_shape :
  returns calculate_monitoring_cost (component_shape "Monitoring Stack" true).
Proof. unfold calculate_monitoring_cost. returns_steps. shape_done. Qed.
Lemma bandwidth_shape : returns calculate_bandwidth_cost (component_shape "Bandwidth" false).
Proof. unfold calculate_bandwidth_cost. returns_steps. shape_done. Qed.
Lemma storage_requirements_shape :
  returns calculate_storage_requirements_cost
    (component_shape "Storage (Recordings)" true).
Proof. unfold calculate_storage_requirements_cost. returns_steps. shape_done. Qed.

(** ** The infrastructure total and the optimisations *)

Lemma bind_ok {A B} (m : M A) (f : A -> M B) (w : World) (b : B) (w' : World) :
  bind m f w = (Ok b, w') -> exists a w1, m w = (Ok a, w1) /\ f a w1 = (Ok b, w').
Proof.
  unfold bind. destruct (m w) as [[a|e] w1]; [|discriminate].
  intro H. exists a, w1. auto.
Qed.

Lemma shape_total (n : string) (b : bool) (c : pyval) :
  component_shape n b c -> get_num_or_zero c "total_monthly" = Some (total_monthly_of c).
Proof.
  unfold component_shape, total_monthly_of, get_num_or_zero.
  intros [_ H]. destruct b.
  - destruct H as [q ->]. reflexivity.
  - rewrite H. reflexivity.
Qed.

Lemma sum_total_monthly_run (l : list pyval) :
  forall acc w,
  Forall (fun c => get_num_or_zero c "total_monthly" = Some (total_monthly_of c)) l ->
  exists v, sum_total_monthly l acc w = (Ok v, w) /\
            v == acc + sumQ (map total_monthly_of l).
Proof.
  induction l as [|c l IH]; intros acc w Hl; cbn [sum_total_monthly].
  - exists acc. split; [reflexivity|]. unfold sumQ. cbn [map fold_right]. ring.
  - inversion Hl as [|? ? Hc Hl']; subst. rewrite Hc.
    destruct (IH (acc + total_monthly_of c) w Hl') as [v [Hv Heq]].
    exists v. split; [exact Hv|]. rewrite Heq. unfold sumQ. cbn [map fold_right]. ring.
Qed.

Lemma total_infrastructure_run (w : World) (R : pyval) (w' : World) :
  calculate_total_infrastructure_cost w = (Ok R, w') ->
  exists c1 c2 c3 c4 c5 c6 c7 c8 infra,
    pyget R "components" = Some (PList [c1; c2; c3; c4; c5; c6; c7; c8]) /\
    component_shape "LiveKit SFU" true c1 /\
    component_shape "API Services" true c2 /\
    component_shape "Database Layer" true c3 /\
    component_shape "Redis Cluster" true c4 /\
    component_shape "API Gateway" true c5 /\
    component_shape "Monitoring Stack" true c6 /\
    component_shape "Bandwidth" false c7 /\
    component_shape "Storage (Recordings)" true c8 /\
    infra == sumQ (map total_monthly_of [c1; c2; c3; c4; c5; c6; c7; c8]) /\
    pyget R "infrastructure_monthly" = Some (PNum infra) /\
    pyget R "contingency_monthly" = Some (PNum (infra * 0.15)) /\
    pyget R "total_monthly" = Some (PNum (infra + infra * 0.15)) /\
    pyget R "total_annual" = Some (PNum ((infra + infra * 0.15) * 12)).
Proof.
  unfold calculate_total_infrastructure_cost. intro H.
  apply bind_ok in H as (c1 & w1 & E1 & H). cbv beta in H.
  apply bind_ok in H as (c2 & w2 & E2 & H). cbv beta in H.
  apply bind_ok in H as (c3 & w3 & E3 & H). cbv beta in H.
  apply bind_ok in H as (c4 & w4 & E4 & H). cbv beta in H.
  apply bind_ok in H as (c5 & w5 & E5 & H). cbv beta in H.
  apply bind_ok in H as (c6 & w6 & E6 & H). cbv beta in H.
  apply bind_ok in H as (c7 & w7 & E7 & H). cbv beta in H.
  apply bind_ok in H as (c8 & w8 & E8 & H). cbv beta zeta in H.
  pose proof (livekit_shape _ _ _ E1) as S1.
  pose proof (api_services_shape _ _ _ E2) as S2.
  pose proof (database_shape _ _ _ E3) as S3.
  pose proof (redis_shape _ _ _ E4) as S4.
  pose proof (gateway_shape _ _ _ E5) as S5.
  pose proof (monitoring_shape _ _ _ E6) as S6.
  pose proof (bandwidth_shape _ _ _ E7) as S7.
  pose proof (storage_requirements_shape _ _ _ E8) as S8.
  apply bind_ok in H as (v & w9 & E9 & H). cbv beta zeta in H.
  destruct (sum_total_monthly_run [c1; c2; c3; c4; c5; c6; c7; c8] 0 w8)
    as [v' [Hv' Heq]].
  { repeat constructor; eapply shape_total; eassumption. }
  rewrite Hv' in E9. injection E9 as <- <-.
  unfold ret in H. injection H as <- _.
  assert (Hi : v' == sumQ (map total_monthly_of [c1; c2; c3; c4; c5; c6; c7; c8]))
    by (rewrite Heq; ring).
  exists c1, c2, c3, c4, c5, c6, c7, c8, v'.
  repeat match goal with |- _ /\ _ => split end; first [assumption | reflexivity].
Qed.

Lemma applicable_cost_loop_run (app : list string) (cs : list (pyval * string)) :
  forall acc w, Forall (fun p => exists b, component_shape (snd p) b (fst p)) cs ->
  exists v, applicable_cost_loop (map fst cs) app acc w = (Ok v, w) /\
            v == acc + applicable_sum app cs.
Proof.
  induction cs as [|[c n] cs IH]; intros acc w Hcs; cbn [map applicable_cost_loop].
  - exists acc. split; [reflexivity|]. unfold applicable_sum, sumQ.
    cbn [map fold_right]. ring.
  - inversion Hcs as [|? ? [b Hs] Hcs']; subst.
    pose proof (shape_total _ _ _ Hs) as Ht. destruct Hs as [Hn _].
    cbn [fst snd] in *.
    unfold bind at 1, component_applies. rewrite Hn. cbn beta iota. unfold ret at 1.
    destruct (existsb (String.eqb n) app) eqn:Ea.
    + rewrite Ht. destruct (IH (acc + total_monthly_of c) w Hcs') as [v [Hv Heq]].
      exists v. split; [exact Hv|]. rewrite Heq.
      unfold applicable_sum, sumQ. cbn [map fold_right fst snd]. rewrite Ea. ring.
    + destruct (IH acc w Hcs') as [v [Hv Heq]].
      exists v. split; [exact Hv|]. rewrite Heq.
      unfold applicable_sum, sumQ. cbn [map fold_right fst snd]. rewrite Ea. ring.
Qed.

Lemma optimization_loop_run (cs : list (pyval * string))
  (Hcs : Forall (fun p => exists b, component_shape (snd p) b (fst p)) cs) :
  forall opts tot det w, exists v det',
    optimization_loop opts (map fst cs) tot det w = (Ok (v, det'), w) /\
    v == tot + sumQ (map (fun o => applicable_sum (applicable_components (snd o)) cs
                                   * savings_percentage (snd o)) opts).
Proof.
  induction opts as [|[name o] opts IH]; intros tot det w; cbn [optimization_loop].
  - exists tot, det. split; [reflexivity|]. unfold sumQ. cbn [map fold_right]. ring.
  - destruct (applicable_cost_loop_run (applicable_components o) cs 0 w Hcs)
      as [a [Ha Heqa]].
    unfold bind at 1. rewrite Ha. cbv beta zeta.
    match goal with
    | |- exists _ _, optimization_loop _ _ ?t ?d _ = _ /\ _ =>
        destruct (IH t d w) as (v & det' & Hv & Heq)
    end.
    exists v, det'. split; [exact Hv|]. rewrite Heq, Heqa.
    unfold sumQ. cbn [map fold_right fst snd]. ring.
Qed.

Lemma cost_optimization_run (w : World) (O : pyval) (w' : World) :
  generate_cost_optimization_analysis w = (Ok O, w') ->
  exists R c1 c2 c3 c4 c5 c6 c7 c8 infra savings,
    fst (calculate_total_infrastructure_cost w) = Ok R /\
    pyget R "components" = Some (PList [c1; c2; c3; c4; c5; c6; c7; c8]) /\
    pyget c7 "component" = Some (PStr "Bandwidth") /\
    pyget c7 "total_monthly" = None /\
    infra == sumQ (map total_monthly_of [c1; c2; c3; c4; c5; c6; c7; c8]) /\
    pyget R "total_monthly" = Some (PNum (infra + infra * 0.15)) /\
    savings == 0.30 * (total_monthly_of c1 + total_monthly_of c2
                       + total_monthly_of c3 + total_monthly_of c4)
               + 0.70 * total_monthly_of c6 + 0.50 * total_monthly_of c8 /\
    pyget O "base_monthly_cost" = Some (PNum (infra + infra * 0.15)) /\
    pyget O "total_monthly_savings" = Some (PNum savings) /\
    pyget O "optimized_monthly_cost" = Some (PNum (infra + infra * 0.15 - savings)).
Proof.
  unfold generate_cost_optimization_analysis. intro H.
  apply bind_ok in H as (R & w1 & E1 & H). cbv beta in H.
  destruct (total_infrastructure_run w R w1 E1)
    as (c1 & c2 & c3 & c4 & c5 & c6 & c7 & c8 & infra & Hc & S1 & S2 & S3 & S4 & S5
        & S6 & S7 & S8 & Hinfra & _ & _ & Ht & _).
  apply bind_ok in H as (l & w2 & E2 & H). cbv beta in H.
  unfold get_list in E2. rewrite Hc in E2. injection E2 as <- <-.
  set (cs := [(c1, "LiveKit SFU"); (c2, "API Services"); (c3, "Database Layer");
              (c4, "Redis Cluster"); (c5, "API Gateway"); (c6, "Monitoring Stack");
              (c7, "Bandwidth"); (c8, "Storage (Recordings)")]).
  assert (Hcs : Forall (fun p => exists b, component_shape (snd p) b (fst p)) cs).
  { repeat constructor; eexists; eassumption. }
  destruct (optimization_loop_run cs Hcs optimizations 0 [] w1)
    as (v & det & Hv & Heqv).
  apply bind_ok in H as (r & w3 & E3 & H).
  change [c1; c2; c3; c4; c5; c6; c7; c8] with (map fst cs) in E3.
  rewrite Hv in E3. injection E3 as <- <-. cbv beta iota in H.
  apply bind_ok in H as (base & w4 & E4 & H). cbv beta zeta in H.
  unfold getq in E4. rewrite Ht in E4. injection E4 as <- <-.
  unfold ret in H. injection H as <- _.
  assert (H7 : total_monthly_of c7 = 0).
  { unfold total_monthly_of, get_num_or_zero. destruct S7 as [_ ->]. reflexivity. }
  exists R, c1, c2, c3, c4, c5, c6, c7, c8, infra, v.
  split; [rewrite E1; reflexivity|].
  split; [exact Hc|].
  split; [apply S7|]. split; [apply S7|].
  split; [exact Hinfra|]. split; [exact Ht|].
  split; [|repeat match goal with |- _ /\ _ => split end; reflexivity].
  rewrite Heqv. unfold optimizations, applicable_sum, sumQ, cs.
  cbn [map fold_right fst snd applicable_components savings_percentage existsb].
  repeat match goal with |- context [String.eqb ?a ?b] =>
    let e := eval vm_compute in (String.eqb a b) in change (String.eqb a b) with e end.
  cbn [orb]. rewrite H7. ring.
Qed.



(** X2: [generate_cost_optimization_analysis] saves 30% of the LiveKit,
    API, database and Redis totals, 70% of the monitoring total and 50% of
    the recording-storage total of the infrastructure report; the
    bandwidth component, which has no [total_monthly], adds nothing to
    [network_optimization]; the optimised cost is the base
    [total_monthly] minus these savings. *)
Theorem cost_optimization_savings (w : World) (Opt : pyval)
  (HO : fst (generate_cost_optimization_analysis w) = Ok Opt) :
  exists R c1 c2 c3 c4 c5 c6 c7 c8 base,
    fst (calculate_total_infrastructure_cost w) = Ok R /\
    pyget R "components" = Some (PList [c1; c2; c3; c4; c5; c6; c7; c8]) /\
    pyget c7 "component" = Some (PStr "Bandwidth") /\
    pyget c7 "total_monthly" = None /\
    let savings := 0.30 * (total_monthly_of c1 + total_monthly_of c2
                           + total_monthly_of c3 + total_monthly_of c4)
                   + 0.70 * total_monthly_of c6 + 0.50 * total_monthly_of c8 in
    has_num R "total_monthly" base /\
    has_num Opt "base_monthly_cost" base /\
    has_num Opt "total_monthly_savings" savings /\
    has_num Opt "optimized_monthly_cost" (base - savings).
Proof.
  destruct (generate_cost_optimization_analysis w) as [r w'] eqn:E.
  cbn [fst] in HO. subst r.
  destruct (cost_optimization_run w Opt w' E)
    as (R & c1 & c2 & c3 & c4 & c5 & c6 & c7 & c8 & infra & savings & HR & Hc & H7n
        & H7t & _ & Ht & Hs & Hb & Hts & Hopt).
  exists R, c1, c2, c3, c4, c5, c6, c7, c8, (infra + infra * 0.15).
  split; [exact HR|]. split; [exact Hc|]. split; [exact H7n|]. split; [exact H7t|].
  cbv zeta. unfold has_num.
  split; [eexists; split; [exact Ht | reflexivity]|].
  split; [eexists; split; [exact Hb | reflexivity]|].
  split; [eexists; split; [exact Hts | exact Hs]|].
  eexists; split; [exact Hopt|]. rewrite Hs. reflexivity.
Qed.

Lemma cost_optimization_savings_witness :
  match fst (generate_cost_optimization_analysis (init_world 0)) with
  | Ok Opt =>
      fst (generate_cost_optimization_analysis (init_world 0)) = Ok Opt /\
      exists R c1 c2 c3 c4 c5 c6 c7 c8 base,
        fst (calculate_total_infrastructure_cost (init_world 0)) = Ok R /\
        pyget R "components" = Some (PList [c1; c2; c3; c4; c5; c6; c7; c8]) /\
        pyget c7 "component" = Some (PStr "Bandwidth") /\
        pyget c7 "total_monthly" = None /\
        let savings := 0.30 * (total_monthly_of c1 + total_monthly_of c2
                               + total_monthly_of c3 + total_monthly_of c4)
                       + 0.70 * total_monthly_of c6 + 0.50 * total_monthly_of c8 in
        has_num R "total_monthly" base /\
        has_num Opt "base_monthly_cost" base /\
        has_num Opt "total_monthly_savings" savings /\
        has_num Opt "optimized_monthly_cost" (base - savings)
  | Err _ => False
  end.
Proof.
  destruct (fst (generate_cost_optimization_analysis (init_world 0))) as [Opt|e] eqn:E.
  - split; [reflexivity|]. exact (cost_optimization_savings (init_world 0) Opt E).
  - vm_compute in E. discriminate E.
Defined.

(** X3: when every component of the infrastructure report has a
    non-negative [total_monthly], the optimised monthly cost of
    [generate_cost_optimization_analysis] is non-negative and at most the
    base monthly cost. *)
Theorem optimized_cost_bounds (w : World) (Opt R : pyval) (cs : list pyval)
  (HO : fst (generate_cost_optimization_analysis w) = Ok Opt)
  (HR : fst (calculate_total_infrastructure_cost w) = Ok R)
  (Hc : pyget R "components" = Some (PList cs))
  (Hnn : Forall (fun c => 0 <= total_monthly_of c) cs) :
  exists base x,
    has_num Opt "base_monthly_cost" base /\
    pyget Opt "optimized_monthly_cost" = Some (PNum x) /\
    0 <= x <= base.
Proof.
  destruct (generate_cost_optimization_analysis w) as [r w'] eqn:E.
  cbn [fst] in HO. subst r.
  destruct (cost_optimization_run w Opt w' E)
    as (R' & c1 & c2 & c3 & c4 & c5 & c6 & c7 & c8 & infra & savings & HR' & Hc'
        & _ & _ & Hi & _ & Hs & Hb & _ & Hopt).
  rewrite HR in HR'. injection HR' as <-.
  rewrite Hc in Hc'. injection Hc' as ->.
  repeat match goal with
         | H : Forall _ (_ :: _) |- _ =>
             let a := fresh "N" in let b := fresh "Hnn" in
             inversion H as [|? ? a b]; clear H
         end.
  exists (infra + infra * 0.15), (infra + infra * 0.15 - savings).
  split; [eexists; split; [exact Hb | reflexivity]|].
  split; [exact Hopt|].
  unfold sumQ in Hi. cbn [map fold_right] in Hi.
  split; lra.
Qed.

Lemma optimized_cost_bounds_witness :
  match fst (generate_cost_optimization_analysis (init_world 0)),
        fst (calculate_total_infrastructure_cost (init_world 0)) with
  | Ok Opt, Ok R =>
      match pyget R "components" with
      | Some (PList cs) =>
          Forall (fun c => 0 <= total_monthly_of c) cs /\
          exists base x,
            has_num Opt "base_monthly_cost" base /\
            pyget Opt "optimized_monthly_cost" = Some (PNum x) /\
            0 <= x <= base
      | _ => False
      end
  | _, _ => False
  end.
Proof.
  destruct (fst (generate_cost_optimization_analysis (init_world 0))) as [Opt|e] eqn:E1;
    [|vm_compute in E1; discriminate E1].
  destruct (fst (calculate_total_infrastructure_cost (init_world 0))) as [R|e] eqn:E2;
    [|vm_compute in E2; discriminate E2].
  pose proof E2 as E2'. vm_compute in E2'. injection E2' as HR.
  destruct (pyget R "components") as [v|] eqn:E3;
    [|subst R; vm_compute in E3; discriminate E3].
  destruct v as [| | | |cs|]; try (subst R; vm_compute in E3; discriminate E3).
  assert (Hnn : Forall (fun c => 0 <= total_monthly_of c) cs).
  { subst R. vm_compute in E3. injection E3 as <-.
    repeat constructor; apply Qle_bool_imp_le; vm_compute; reflexivity. }
  split; [exact Hnn|].
  exact (optimized_cost_bounds (init_world 0) Opt R cs E1 E2 E3 Hnn).
Defined.

(** ** Failures *)

Lemma bind_err {A B} (m : M A) (f : A -> M B) (w w1 : World) (e : exn) :
  m w = (Err e, w1) -> bind m f w = (Err e, w1).
Proof. intro H. unfold bind. rewrite H. reflexivity. Qed.

Lemma instance_cost_missing (w : World) (t : string) (n : Q) :
  assoc t (instances (pricing (calc w))) = None ->
  calculate_instance_cost t n w = (Err (KeyError t), w).
Proof.
  intro Ht. unfold calculate_instance_cost, bind, self, lookup_or_raise.
  cbn beta iota. rewrite Ht. reflexivity.
Qed.

Lemma operational_costs_ok (w : World) :
  exists R, calculate_operational_costs w = (Ok R, w).
Proof.
  unfold calculate_operational_costs, bind, self. cbv beta iota zeta.
  destruct (team_loop _ 0 []). eexists. reflexivity.
Qed.

Lemma total_infrastructure_missing_livekit_type (w : World) :
  let t := lk_instance_type (livekit_sfu (infrastructure (calc w))) in
  assoc t (instances (pricing (calc w))) = None ->
  calculate_total_infrastructure_cost w = (Err (KeyError t), w).
Proof.
  cbv zeta. intro Ht.
  unfold calculate_total_infrastructure_cost. apply bind_err.
  unfold calculate_livekit_sfu_cost. unfold bind at 1, self at 1. cbv beta iota zeta.
  apply bind_err. apply instance_cost_missing. exact Ht.
Qed.

Lemma one_time_costs_missing_run (w : World) :
  let ts := team_salaries (operational_costs (calc w)) in
  assoc "backend_dev" ts = None \/ assoc "devops" ts = None ->
  calculate_one_time_costs w = (Err (KeyError (first_missing_role ts)), w).
Proof.
  cbv zeta. intro Hm. unfold calculate_one_time_costs, first_missing_role.
  unfold bind at 1, self at 1. cbv beta iota zeta.
  destruct (assoc "backend_dev" _) as [bd|] eqn:Hbd.
  - destruct Hm as [Hm|Hm]; [discriminate Hm|].
    unfold bind at 1, lookup_or_raise at 1, ret at 1. cbv beta iota.
    apply bind_err. unfold lookup_or_raise. rewrite Hm. reflexivity.
  - apply bind_err. reflexivity.
Qed.



(** X5: when the LiveKit instance type is missing from the price table,
    the infrastructure total, the ROI analysis, the optimisation analysis,
    the resource summary and the complete report all raise
    [KeyError] naming that type. *)
Theorem unknown_livekit_type_fails_reports (w : World)
  (Ht : assoc (lk_instance_type (livekit_sfu (infrastructure (calc w))))
              (instances (pricing (calc w))) = None) :
  let e := Err (KeyError (lk_instance_type (livekit_sfu (infrastructure (calc w))))) in
  fst (calculate_total_infrastructure_cost w) = e /\
  fst (generate_roi_analysis w) = e /\
  fst (generate_cost_optimization_analysis w) = e /\
  fst (generate_resource_summary w) = e /\
  fst (generate_complete_report w) = e.
Proof.
  cbv zeta.
  pose proof (total_infrastructure_missing_livekit_type w Ht) as Htot.
  split; [rewrite Htot; reflexivity|].
  split.
  { unfold generate_roi_analysis.
    destruct (operational_costs_ok w) as [R HR].
    unfold bind at 1. rewrite HR. cbv beta.
    rewrite (bind_err _ _ w w _ Htot). reflexivity. }
  split.
  { unfold generate_cost_optimization_analysis.
    rewrite (bind_err _ _ w w _ Htot). reflexivity. }
  split.
  { unfold generate_resource_summary. unfold bind at 1, self at 1. cbv beta iota zeta.
    unfold instance_of. erewrite bind_err; [reflexivity|].
    unfold bind, self, lookup_or_raise. cbn beta iota. rewrite Ht. reflexivity. }
  unfold generate_complete_report. unfold bind at 1, now at 1. cbv beta iota.
  rewrite (bind_err _ _ _ _ _ (total_infrastructure_missing_livekit_type
                                 {| calc := calc w; clock := (clock w + 1)%Z |} Ht)).
  reflexivity.
Qed.

Lemma unknown_livekit_type_fails_reports_witness :
  let w := {| calc := with_instances init_calc (tl (instances (pricing init_calc)));
              clock := 0 |} in
  assoc (lk_instance_type (livekit_sfu (infrastructure (calc w))))
        (instances (pricing (calc w))) = None /\
  let e := Err (KeyError (lk_instance_type (livekit_sfu (infrastructure (calc w))))) in
  fst (calculate_total_infrastructure_cost w) = e /\
  fst (generate_roi_analysis w) = e /\
  fst (generate_cost_optimization_analysis w) = e /\
  fst (generate_resource_summary w) = e /\
  fst (generate_complete_report w) = e.
Proof.
  intro w.
  assert (H : assoc (lk_instance_type (livekit_sfu (infrastructure (calc w))))
                    (instances (pricing (calc w))) = None)
    by (vm_compute; reflexivity).
  split; [exact H|]. exact (unknown_livekit_type_fails_reports w H).
Defined.

(** X6: when [team_salaries] lacks [backend_dev] or [devops],
    [calculate_one_time_costs] raises [KeyError] naming the first of the two
    that is missing; and when the infrastructure total succeeds, the
    complete report raises the same error. *)
Theorem one_time_costs_missing_role (w : World) (R : pyval)
  (Hm : assoc "backend_dev" (team_salaries (operational_costs (calc w))) = None \/
        assoc "devops" (team_salaries (operational_costs (calc w))) = None)
  (HR : fst (calculate_total_infrastructure_cost w) = Ok R) :
  let e := Err (KeyError (first_missing_role (team_salaries (operational_costs (calc w))))) in
  fst (calculate_one_time_costs w) = e /\
  fst (generate_complete_report w) = e.
Proof.
  cbv zeta. split; [rewrite (one_time_costs_missing_run w Hm); reflexivity|].
  unfold generate_complete_report. unfold bind at 1, now at 1. cbv beta iota.
  set (w1 := {| calc := calc w; clock := (clock w + 1)%Z |}).
  destruct (indep_calculate_total_infrastructure_cost w1 w eq_refl) as [Hf _].
  pose proof (frames_calculate_total_infrastructure_cost w1) as Hc.
  unfold bind at 1.
  destruct (calculate_total_infrastructure_cost w1) as [[R1|e] w2] eqn:E1;
    cbn [fst snd] in Hf, Hc; [|congruence].
  destruct (operational_costs_ok w2) as [O HO].
  unfold bind at 1. rewrite HO. cbv beta.
  rewrite (bind_err _ _ w2 w2 _ (one_time_costs_missing_run w2 ltac:(rewrite Hc; exact Hm))).
  rewrite Hc. reflexivity.
Qed.

Lemma one_time_costs_missing_role_witness :
  let w := {| calc := with_team_salaries init_calc
                        [("devops", {| count := 1; monthly_salary := 5000 |})];
              clock := 0 |} in
  match fst (calculate_total_infrastructure_cost w) with
  | Ok R =>
      (assoc "backend_dev" (team_salaries (operational_costs (calc w))) = None \/
       assoc "devops" (team_salaries (operational_costs (calc w))) = None) /\
      let e := Err (KeyError (first_missing_role
                                (team_salaries (operational_costs (calc w))))) in
      fst (calculate_one_time_costs w) = e /\
      fst (generate_complete_report w) = e
  | Err _ => False
  end.
Proof.
  intro w.
  destruct (fst (calculate_total_infrastructure_cost w)) as [R|e] eqn:E;
    [|vm_compute in E; discriminate E].
  assert (Hm : assoc "backend_dev" (team_salaries (operational_costs (calc w))) = None \/
               assoc "devops" (team_salaries (operational_costs (calc w))) = None)
    by (left; vm_compute; reflexivity).
  split; [exact Hm|]. exact (one_time_costs_missing_role w R Hm E).
Defined.

(** ** Operational and one-time costs *)

Lemma team_loop_run (ts : list (string * TeamRole)) :
  forall acc det,
  fst (team_loop ts acc det) == acc + sumQ (map role_cost ts) /\
  map (fun d => pyget d "role") (snd (team_loop ts acc det))
    = map (fun d => pyget d "role") det ++ map (fun p => Some (PStr (fst p))) ts.
Proof.
  induction ts as [|[role config] ts IH]; intros acc det; cbn [team_loop].
  - split; [unfold sumQ; cbn; ring | rewrite app_nil_r; reflexivity].
  - destruct (IH (acc + count config * monthly_salary config)
                 (det ++ [sdict [
                    ("role", PStr role);
                    ("count", PNum (count config));
                    ("monthly_salary", PNum (monthly_salary config));
                    ("monthly_cost", PNum (count config * monthly_salary config))]]))
      as [H1 H2].
    split.
    + rewrite H1. unfold sumQ, role_cost. cbn [map fold_right fst snd]. ring.
    + rewrite H2, map_app, <- app_assoc. reflexivity.
Qed.

Lemma operational_costs_run (w : World) :
  let oc := operational_costs (calc w) in
  exists R tm details,
    calculate_operational_costs w = (Ok R, w) /\
    tm == sumQ (map role_cost (team_salaries oc)) /\
    pyget R "team_monthly" = Some (PNum tm) /\
    pyget R "total_monthly"
      = Some (PNum (tm + marketing_sales oc + operations_support oc)) /\
    pyget R "team_costs" = Some (PList details) /\
    map (fun d => pyget d "role") details
      = map (fun p => Some (PStr (fst p))) (team_salaries oc).
Proof.
  cbv zeta. unfold calculate_operational_costs, bind, self. cbv beta iota zeta.
  pose proof (team_loop_run (team_salaries (operational_costs (calc w))) 0 []) as [H1 H2].
  destruct (team_loop _ 0 []) as [tm det]. cbn [fst snd] in H1, H2.
  exists (sdict [
    ("component", PStr "Operational Costs");
    ("team_costs", PList det);
    ("team_monthly", PNum tm);
    ("marketing_sales", PNum (marketing_sales (operational_costs (calc w))));
    ("operations_support", PNum (operations_support (operational_costs (calc w))));
    ("total_monthly", PNum (tm + marketing_sales (operational_costs (calc w))
                            + operations_support (operational_costs (calc w))));
    ("total_annual", PNum ((tm + marketing_sales (operational_costs (calc w))
                            + operations_support (operational_costs (calc w))) * 12))]),
    tm, det.
  split; [reflexivity|]. split; [rewrite H1; ring|].
  split; [reflexivity|]. split; [reflexivity|]. split; [reflexivity|]. exact H2.
Qed.

Lemma filter_keep_all (k : string) (l : list (string * TeamRole)) :
  ~ In k (map fst l) -> filter (fun p => negb (String.eqb (fst p) k)) l = l.
Proof.
  induction l as [|[k' v'] l IH]; intro Hn; [reflexivity|].
  cbn [filter fst]. cbn [map fst In] in Hn.
  destruct (String.eqb_spec k' k) as [->|Hne]; [exfalso; apply Hn; left; reflexivity|].
  cbn [negb]. rewrite IH; [reflexivity|]. intro Hin. apply Hn. right. exact Hin.
Qed.

Lemma role_sum_split (k : string) (v : TeamRole) (ts : list (string * TeamRole)) :
  NoDup (map fst ts) -> assoc k ts = Some v ->
  sumQ (map role_cost ts)
    == role_cost (k, v)
       + sumQ (map role_cost (filter (fun p => negb (String.eqb (fst p) k)) ts)).
Proof.
  induction ts as [|[k' v'] ts IH]; intros Hnd Ha; [discriminate Ha|].
  cbn [map fst] in Hnd. inversion Hnd as [|? ? Hn Hnd']; subst.
  cbn [assoc] in Ha. cbn [filter fst].
  destruct (String.eqb_spec k k') as [->|Hne].
  - injection Ha as <-. rewrite String.eqb_refl. cbn [negb].
    rewrite (filter_keep_all k' ts Hn). unfold sumQ. cbn [map fold_right]. ring.
  - assert (Hb : String.eqb k' k = false) by (apply String.eqb_neq; congruence).
    rewrite Hb. cbn [negb]. unfold sumQ in *. cbn [map fold_right].
    rewrite (IH Hnd' Ha). ring.
Qed.

Lemma nodup_filter_keys (f : string * TeamRole -> bool) (l : list (string * TeamRole)) :
  NoDup (map fst l) -> NoDup (map fst (filter f l)).
Proof.
  induction l as [|p l IH]; intro Hnd; [constructor|].
  cbn [map] in Hnd. inversion Hnd as [|? ? Hn Hnd']; subst.
  cbn [filter]. destruct (f p); [|apply IH; exact Hnd'].
  cbn [map]. constructor; [|apply IH; exact Hnd'].
  intro Hin. apply Hn. apply in_map_iff in Hin as [q [Hq Hin]].
  apply filter_In in Hin as [Hin _]. rewrite <- Hq. apply in_map. exact Hin.
Qed.

Lemma assoc_filter_other (k k' : string) (l : list (string * TeamRole)) :
  k <> k' -> assoc k (filter (fun p => negb (String.eqb (fst p) k')) l) = assoc k l.
Proof.
  intro Hne. induction l as [|[k0 v0] l IH]; [reflexivity|].
  cbn [filter fst assoc].
  destruct (String.eqb_spec k0 k') as [->|Hne'].
  - cbn [negb]. rewrite IH. apply String.eqb_neq in Hne. rewrite Hne. reflexivity.
  - cbn [negb assoc]. rewrite IH. reflexivity.
Qed.

(** X7: [calculate_operational_costs] always succeeds; its [team_monthly]
    is the sum of [count * monthly_salary] over the roles, its
    [total_monthly] adds [marketing_sales] and [operations_support], and
    [team_costs] lists the roles in the order of [team_salaries]. *)
Theorem operational_costs_totals (w : World) :
  let oc := operational_costs (calc w) in
  exists R details,
    calculate_operational_costs w = (Ok R, w) /\
    has_num R "team_monthly" (sumQ (map role_cost (team_salaries oc))) /\
    has_num R "total_monthly"
      (sumQ (map role_cost (team_salaries oc)) + marketing_sales oc
       + operations_support oc) /\
    pyget R "team_costs" = Some (PList details) /\
    map (fun d => pyget d "role") details
      = map (fun p => Some (PStr (fst p))) (team_salaries oc).
Proof.
  cbv zeta.
  destruct (operational_costs_run w) as (R & tm & details & HR & Htm & H1 & H2 & H3 & H4).
  exists R, details. split; [exact HR|].
  split; [exists tm; split; [exact H1 | exact Htm]|].
  split; [eexists; split; [exact H2 | rewrite Htm; reflexivity]|].
  split; [exact H3 | exact H4].
Qed.

(** X8: when the role names of [team_salaries] are distinct and include
    [backend_dev] and [devops], the one-time [development] cost is four
    times the operational [team_monthly] less the monthly cost of every
    other role: the other roles are left out of it. *)
Theorem development_is_four_months_of_backend_and_devops (w : World) (bd dv : TeamRole)
  (Hnd : NoDup (map fst (team_salaries (operational_costs (calc w)))))
  (Hbd : assoc "backend_dev" (team_salaries (operational_costs (calc w))) = Some bd)
  (Hdv : assoc "devops" (team_salaries (operational_costs (calc w))) = Some dv) :
  let ts := team_salaries (operational_costs (calc w)) in
  exists R D tm dev,
    calculate_operational_costs w = (Ok R, w) /\
    calculate_one_time_costs w = (Ok D, w) /\
    has_num R "team_monthly" tm /\
    has_num D "development" dev /\
    dev == 4 * (tm - sumQ (map role_cost (other_roles ts))).
Proof.
  cbv zeta.
  destruct (operational_costs_run w) as (R & tm & details & HR & Htm & H1 & _).
  set (ts := team_salaries (operational_costs (calc w))) in *.
  pose proof (role_sum_split "backend_dev" bd ts Hnd Hbd) as S1.
  pose proof (role_sum_split "devops" dv
                (filter (fun p => negb (String.eqb (fst p) "backend_dev")) ts)
                (nodup_filter_keys _ ts Hnd)
                ltac:(rewrite assoc_filter_other by discriminate; exact Hdv)) as S2.
  exists R.
  eexists. exists tm.
  eexists. split; [exact HR|].
  split.
  { unfold calculate_one_time_costs, bind, self, lookup_or_raise. cbv beta iota zeta.
    fold ts. rewrite Hbd, Hdv. unfold ret. reflexivity. }
  split; [exists tm; split; [exact H1 | reflexivity]|].
  split; [eexists; split; [reflexivity | reflexivity]|].
  unfold other_roles. fold ts. rewrite Htm, S1, S2.
  unfold role_cost. cbn [fst snd]. ring.
Qed.

Lemma development_is_four_months_of_backend_and_devops_witness :
  NoDup (map fst (team_salaries (operational_costs (calc (init_world 0))))) /\
  assoc "backend_dev" (team_salaries (operational_costs (calc (init_world 0))))
    = Some {| count := 2; monthly_salary := 5000 |} /\
  assoc "devops" (team_salaries (operational_costs (calc (init_world 0))))
    = Some {| count := 1; monthly_salary := 5000 |} /\
  let ts := team_salaries (operational_costs (calc (init_world 0))) in
  exists R D tm dev,
    calculate_operational_costs (init_world 0) = (Ok R, init_world 0) /\
    calculate_one_time_costs (init_world 0) = (Ok D, init_world 0) /\
    has_num R "team_monthly" tm /\
    has_num D "development" dev /\
    dev == 4 * (tm - sumQ (map role_cost (other_roles ts))).
Proof.
  assert (Hnd : NoDup (map fst (team_salaries (operational_costs (calc (init_world 0))))))
    by (cbn; repeat constructor; cbn; intuition discriminate).
  split; [exact Hnd|]. split; [reflexivity|]. split; [reflexivity|].
  exact (development_is_four_months_of_backend_and_devops (init_world 0) _ _
           Hnd eq_refl eq_refl).
Defined.

(** ** Component costs *)

Lemma price_of_some (c : Calc) (t : string) (i : InstanceSpec) :
  assoc t (instances (pricing c)) = Some i -> price_of c t = price i.
Proof. intro H. unfold price_of. rewrite H. reflexivity. Qed.

Lemma api_services_loop_run (w : World) (cfg : list (string * ServiceConfig)) :
  Forall (fun p => priced (calc w) (svc_instance_type (snd p))) cfg ->
  forall svcs t, exists svcs' t',
    api_services_loop cfg svcs t w = (Ok (svcs', t'), w) /\
    t' == t + sumQ (map (fun p => replicas (snd p)
                                  * price_of (calc w) (svc_instance_type (snd p))) cfg) /\
    map (fun x => pyget x "service") svcs'
      = map (fun x => pyget x "service") svcs ++ map (fun p => Some (PStr (fst p))) cfg.
Proof.
  induction 1 as [|[name sc] rest [i Hi] Hrest IH]; intros svcs t;
    cbn [api_services_loop].
  - exists svcs, t. split; [reflexivity|].
    split; [unfold sumQ; cbn; ring | rewrite app_nil_r; reflexivity].
  - cbn [snd] in Hi. unfold bind at 1.
    rewrite (calculate_instance_cost_run w _ (replicas sc) i Hi).
    cbn. unfold ret. cbn.
    match goal with
    | |- exists _ _, api_services_loop _ ?s1 ?t1 _ = _ /\ _ =>
        destruct (IH s1 t1) as (svcs' & t' & Hrun & Ht & Hn)
    end.
    exists svcs', t'. split; [exact Hrun|]. split.
    + rewrite Ht. rewrite (price_of_some _ _ _ Hi). unfold sumQ. cbn [map fold_right snd].
      ring.
    + rewrite Hn, map_app, <- app_assoc. reflexivity.
Qed.

(** X9: when every API service's instance type is priced,
    [calculate_api_services_cost] succeeds; its [total_monthly] is the sum
    over the services of [replicas] times the unit price, and [services]
    holds one entry per service, tagged with its name, in configuration
    order. *)
Theorem api_services_cost_total (w : World)
  (Hp : Forall (fun p => priced (calc w) (svc_instance_type (snd p)))
               (api_services (infrastructure (calc w)))) :
  let cfg := api_services (infrastructure (calc w)) in
  exists R services,
    calculate_api_services_cost w = (Ok R, w) /\
    has_num R "total_monthly"
      (sumQ (map (fun p => replicas (snd p) * price_of (calc w) (svc_instance_type (snd p)))
                 cfg)) /\
    pyget R "services" = Some (PList services) /\
    map (fun x => pyget x "service") services = map (fun p => Some (PStr (fst p))) cfg.
Proof.
  cbv zeta. unfold calculate_api_services_cost. unfold bind at 1, self at 1. cbv beta.
  destruct (api_services_loop_run w _ Hp [] 0) as (svcs & t & Hrun & Ht & Hn).
  unfold bind at 1. rewrite Hrun. cbv beta iota. unfold ret.
  eexists. exists svcs. split; [reflexivity|].
  split; [eexists; split; [reflexivity | rewrite Ht; ring]|].
  split; [reflexivity | exact Hn].
Qed.

Lemma api_services_cost_total_witness :
  Forall (fun p => priced (calc (init_world 0)) (svc_instance_type (snd p)))
         (api_services (infrastructure (calc (init_world 0)))) /\
  let cfg := api_services (infrastructure (calc (init_world 0))) in
  exists R services,
    calculate_api_services_cost (init_world 0) = (Ok R, init_world 0) /\
    has_num R "total_monthly"
      (sumQ (map (fun p => replicas (snd p)
                           * price_of (calc (init_world 0)) (svc_instance_type (snd p)))
                 cfg)) /\
    pyget R "services" = Some (PList services) /\
    map (fun x => pyget x "service") services = map (fun p => Some (PStr (fst p))) cfg.
Proof.
  assert (Hp : Forall (fun p => priced (calc (init_world 0)) (svc_instance_type (snd p)))
                      (api_services (infrastructure (calc (init_world 0)))))
    by (repeat constructor; eexists; reflexivity).
  split; [exact Hp|]. exact (api_services_cost_total (init_world 0) Hp).
Defined.

(** X10: when the primary, replica and pgbouncer types are priced,
    [calculate_database_cost] succeeds; it bills the storage of the primary
    once, whatever its node count, and the replicas' storage once per
    replica, and its [total_monthly] is the three instance costs plus that
    storage at the block-storage rate. *)
Theorem database_cost_total (w : World)
  (Hp : priced (calc w) (ns_instance_type (db_primary (database (infrastructure (calc w))))))
  (Hr : priced (calc w) (ns_instance_type (db_replicas (database (infrastructure (calc w))))))
  (Hb : priced (calc w) (n_instance_type (pgbouncer (database (infrastructure (calc w)))))) :
  let c := calc w in
  let db := database (infrastructure c) in
  let storage_gb := ns_storage_gb (db_primary db)
                    + ns_storage_gb (db_replicas db) * ns_nodes (db_replicas db) in
  exists R,
    calculate_database_cost w = (Ok R, w) /\
    has_num (sub R "storage_cost") "storage_gb" storage_gb /\
    has_num R "total_monthly"
      (ns_nodes (db_primary db) * price_of c (ns_instance_type (db_primary db))
       + ns_nodes (db_replicas db) * price_of c (ns_instance_type (db_replicas db))
       + n_nodes (pgbouncer db) * price_of c (n_instance_type (pgbouncer db))
       + storage_gb * block_storage (storage (pricing c))).
Proof.
  destruct Hp as [ip Hip], Hr as [ir Hir], Hb as [ib Hib]. cbv zeta.
  unfold calculate_database_cost. unfold bind at 1, self at 1. cbv beta zeta.
  unfold bind at 1. rewrite (calculate_instance_cost_run w _ _ ip Hip). cbv beta.
  unfold bind at 1. rewrite (calculate_instance_cost_run w _ _ ir Hir). cbv beta.
  unfold bind at 1. rewrite (calculate_instance_cost_run w _ _ ib Hib). cbv beta zeta.
  unfold bind at 1. rewrite calculate_storage_cost_run. cbv beta.
  cbn. unfold ret. eexists. split; [reflexivity|].
  rewrite (price_of_some _ _ _ Hip), (price_of_some _ _ _ Hir), (price_of_some _ _ _ Hib).
  unfold has_num. cbn.
  split; eexists; split; try reflexivity; ring.
Qed.

Lemma database_cost_total_witness :
  let w := init_world 0 in
  priced (calc w) (ns_instance_type (db_primary (database (infrastructure (calc w))))) /\
  priced (calc w) (ns_instance_type (db_replicas (database (infrastructure (calc w))))) /\
  priced (calc w) (n_instance_type (pgbouncer (database (infrastructure (calc w))))) /\
  let c := calc w in
  let db := database (infrastructure c) in
  let storage_gb := ns_storage_gb (db_primary db)
                    + ns_storage_gb (db_replicas db) * ns_nodes (db_replicas db) in
  exists R,
    calculate_database_cost w = (Ok R, w) /\
    has_num (sub R "storage_cost") "storage_gb" storage_gb /\
    has_num R "total_monthly"
      (ns_nodes (db_primary db) * price_of c (ns_instance_type (db_primary db))
       + ns_nodes (db_replicas db) * price_of c (ns_instance_type (db_replicas db))
       + n_nodes (pgbouncer db) * price_of c (n_instance_type (pgbouncer db))
       + storage_gb * block_storage (storage (pricing c))).
Proof.
  intro w.
  assert (Hp : priced (calc w) (ns_instance_type (db_primary (database (infrastructure (calc w))))))
    by (eexists; reflexivity).
  assert (Hr : priced (calc w) (ns_instance_type (db_replicas (database (infrastructure (calc w))))))
    by (eexists; reflexivity).
  assert (Hb : priced (calc w) (n_instance_type (pgbouncer (database (infrastructure (calc w))))))
    by (eexists; reflexivity).
  split; [exact Hp|]. split; [exact Hr|]. split; [exact Hb|].
  exact (database_cost_total w Hp Hr Hb).
Defined.

Lemma py_int_nonneg (q : Q) : 0 <= q -> 0 <= py_int q.
Proof.
  intro Hq. unfold py_int.
  destruct (Qle_bool 0 q) eqn:E.
  - change 0 with (inject_Z 0). rewrite <- Zle_Qle.
    change 0%Z with (Qfloor 0). apply Qfloor_resp_le. exact Hq.
  - apply Qle_bool_iff in Hq. congruence.
Qed.

(** X11: [calculate_storage_requirements_cost] records at most 8 streams
    per meeting: for a non-negative meeting duration and participant
    count, [per_meeting_gb] is non-negative and at most 8 streams of one
    Mbps over the meeting's duration. *)
Theorem recording_streams_capped (w : World)
  (Hd : 0 <= sr_avg_meeting_duration_hours (storage_requirements (calc w)))
  (Hn : 0 <= sr_participants_per_meeting (storage_requirements (calc w))) :
  exists R x,
    calculate_storage_requirements_cost w = (Ok R, w) /\
    pyget R "per_meeting_gb" = Some (PNum x) /\
    0 <= x <= 1.0 * 3600 / 8 / 1024 * 8
                * sr_avg_meeting_duration_hours (storage_requirements (calc w)).
Proof.
  unfold calculate_storage_requirements_cost, bind, self, ret. cbv beta iota zeta.
  eexists. eexists. split; [reflexivity|]. split; [reflexivity|].
  set (d := sr_avg_meeting_duration_hours _) in *.
  set (a := py_min (py_int (sr_participants_per_meeting _ * 0.15)) 8).
  assert (Ha : 0 <= a <= 8).
  { assert (H0 : 0 <= py_int (sr_participants_per_meeting (storage_requirements (calc w)) * 0.15)).
    { apply py_int_nonneg. apply Qmult_le_0_compat; [exact Hn | discriminate]. }
    unfold a, py_min.
    destruct (Qlt_le_dec 8 _) as [Hlt|Hle]; split; try lra. }
  assert (Hk : 0 <= 1.0 * 3600 / 8 / 1024) by (apply Qle_bool_imp_le; reflexivity).
  set (k := 1.0 * 3600 / 8 / 1024) in *.
  split.
  - apply Qmult_le_0_compat; [apply Qmult_le_0_compat|]; lra.
  - apply Qmult_le_compat_r; [|exact Hd].
    rewrite <- (Qmult_comm a), <- (Qmult_comm 8).
    apply Qmult_le_compat_r; lra.
Qed.

Lemma recording_streams_capped_witness :
  0 <= sr_avg_meeting_duration_hours (storage_requirements (calc (init_world 0))) /\
  0 <= sr_participants_per_meeting (storage_requirements (calc (init_world 0))) /\
  exists R x,
    calculate_storage_requirements_cost (init_world 0) = (Ok R, init_world 0) /\
    pyget R "per_meeting_gb" = Some (PNum x) /\
    0 <= x <= 1.0 * 3600 / 8 / 1024 * 8
                * sr_avg_meeting_duration_hours (storage_requirements (calc (init_world 0))).
Proof.
  assert (Hd : 0 <= sr_avg_meeting_duration_hours (storage_requirements (calc (init_world 0))))
    by (apply Qle_bool_imp_le; reflexivity).
  assert (Hn : 0 <= sr_participants_per_meeting (storage_requirements (calc (init_world 0))))
    by (apply Qle_bool_imp_le; reflexivity).
  split; [exact Hd|]. split; [exact Hn|].
  exact (recording_streams_capped (init_world 0) Hd Hn).
Defined.


Lemma monitoring_loop_prefix (w : World) (pre : list (string * MonitoringConfig)) :
  Forall (fun p => mon_priced (calc w) (snd p)) pre ->
  forall tail comps t s, exists comps' t' s',
    monitoring_loop (pre ++ tail) comps t s w = monitoring_loop tail comps' t' s' w.
Proof.
  induction 1 as [|[name mc] rest Hp Hrest IH]; intros tail comps t s.
  - exists comps, t, s. reflexivity.
  - cbn [app monitoring_loop]. unfold mon_priced in Hp. cbn [snd] in Hp.
    destruct (mon_nodes mc) as [n|] eqn:Hn.
    + destruct (Hp n eq_refl) as (ty & i & Hty & Hi). rewrite Hty.
      unfold bind at 1 3, lookup_or_raise. cbn beta iota.
      unfold bind at 1. unfold ret at 1. cbn beta iota.
      rewrite (calculate_instance_cost_run w ty n i Hi). cbn beta iota.
      destruct (mon_storage_gb mc) as [g|]; cbn; unfold ret; cbn; apply IH.
    + unfold bind at 1 2. unfold ret at 1. cbn beta iota.
      destruct (mon_storage_gb mc) as [g|]; cbn; unfold ret; cbn; apply IH.
Qed.

(** X13: a monitoring entry that has [nodes] but no [instance_type], after
    entries whose types are priced, makes [calculate_monitoring_cost] raise
    [KeyError('instance_type')]. *)
Theorem monitoring_missing_instance_type (w : World)
  (pre rest : list (string * MonitoringConfig)) (name : string)
  (mc : MonitoringConfig) (n : Q)
  (Hcfg : monitoring (infrastructure (calc w)) = pre ++ (name, mc) :: rest)
  (Hpre : Forall (fun p => mon_priced (calc w) (snd p)) pre)
  (Hn : mon_nodes mc = Some n) (Ht : mon_instance_type mc = None) :
  fst (calculate_monitoring_cost w) = Err (KeyError "instance_type").
Proof.
  unfold calculate_monitoring_cost. unfold bind at 1, self at 1. cbv beta.
  rewrite Hcfg.
  destruct (monitoring_loop_prefix w pre Hpre ((name, mc) :: rest) [] 0 0)
    as (comps & t & s & Heq).
  unfold bind at 1. rewrite Heq. cbn [monitoring_loop]. rewrite Hn, Ht.
  reflexivity.
Qed.

Lemma monitoring_missing_instance_type_witness :
  let prom := {| mon_nodes := Some 2; mon_instance_type := Some "medium";
                 mon_storage_gb := Some 500 |} in
  let loki := {| mon_nodes := Some 2; mon_instance_type := None;
                 mon_storage_gb := Some 100 |} in
  let w := {| calc := with_monitoring init_calc [("prometheus", prom); ("loki", loki)];
              clock := 0 |} in
  monitoring (infrastructure (calc w)) = [("prometheus", prom)] ++ ("loki", loki) :: [] /\
  Forall (fun p => mon_priced (calc w) (snd p)) [("prometheus", prom)] /\
  fst (calculate_monitoring_cost w) = Err (KeyError "instance_type").
Proof.
  intros prom loki w.
  assert (Hpre : Forall (fun p => mon_priced (calc w) (snd p)) [("prometheus", prom)]).
  { repeat constructor. intros n Hn. exists "medium", {| vcpu := 8; ram := 32; price := 167 |}.
    split; reflexivity. }
  split; [reflexivity|]. split; [exact Hpre|].
  exact (monitoring_missing_instance_type w [("prometheus", prom)] [] "loki" loki 2
           eq_refl Hpre eq_refl eq_refl).
Defined.

(** ** Break-even and three-year profit *)

Lemma cumulative_profit_at_36 (a b c d : Q) :
  cumulative_profit_at a b c d 36 == a + b + c - d.
Proof. cbn [cumulative_profit_at month_profit Nat.leb]. field. Qed.

Lemma scenario_entry_fields (a b c d : pyval) :
  let E := sdict [("yearly_revenue", a); ("yearly_profit", b);
                  ("break_even_month", c); ("total_3_year_profit", d)] in
  pyget E "break_even_month" = Some c /\ pyget E "total_3_year_profit" = Some d.
Proof. split; reflexivity. Qed.

(** X14: a scenario of [generate_roi_analysis] whose
    [total_3_year_profit] is positive always has a [break_even_month],
    a month from 1 to 36. *)
Theorem break_even_when_three_year_profit_positive (s : Scenario) (burn : Q)
  (w w' : World) (E : pyval) (p : Q)
  (HE : scenario_entry s burn w = (Ok E, w'))
  (Hp : has_num E "total_3_year_profit" p) (Hpos : 0 < p) :
  exists m, pyget E "break_even_month" = Some (PNum (inject_Z (Z.of_nat m))) /\
            (1 <= m <= 36)%nat.
Proof.
  unfold scenario_entry in HE.
  apply bind_ok in HE as (ot & w1 & E1 & HE). cbv beta in HE.
  apply bind_ok in HE as (otc & w2 & E2 & HE). cbv beta zeta in HE.
  unfold ret in HE. injection HE as <- _.
  edestruct scenario_entry_fields as [Hb Ht]. rewrite Hb. clear Hb.
  destruct Hp as [x [Hx Hxp]]. rewrite Ht in Hx. injection Hx as <-. clear Ht.
  cbn [fold_left] in Hxp.
  set (y1 := yearly_profit s burn 1) in *.
  set (y2 := yearly_profit s burn 2) in *.
  set (y3 := yearly_profit s burn 3) in *.
  pose proof (break_even_loop_spec y1 y2 y3 otc 36 1 0) as Hs.
  specialize (Hs ltac:(lia) ltac:(intro; contradiction) ltac:(intros; lia)).
  unfold break_even_scan.
  destruct (break_even_loop y1 y2 y3 otc (seq 1 36) 0 None) as [m|].
  - destruct Hs as [Hm _]. exists m. split; [reflexivity | lia].
  - exfalso. specialize (Hs 36%nat ltac:(lia)).
    rewrite cumulative_profit_at_36 in Hs. lra.
Qed.

Lemma break_even_when_three_year_profit_positive_witness :
  let s := {| year1_meetings_per_day := 500; year2_meetings_per_day := 2000;
              year3_meetings_per_day := 5000; enterprise_ratio := 0.3 |} in
  match scenario_entry s 0 (init_world 0) with
  | (Ok E, w') =>
      match pyget E "total_3_year_profit" with
      | Some (PNum p) =>
          scenario_entry s 0 (init_world 0) = (Ok E, w') /\
          has_num E "total_3_year_profit" p /\ 0 < p /\
          exists m, pyget E "break_even_month" = Some (PNum (inject_Z (Z.of_nat m))) /\
                    (1 <= m <= 36)%nat
      | _ => False
      end
  | (Err _, _) => False
  end.
Proof.
  intro s.
  destruct (scenario_entry s 0 (init_world 0)) as [[E|e] w'] eqn:HE;
    [|vm_compute in HE; discriminate HE].
  pose proof HE as HE'. vm_compute in HE'. injection HE' as HEq _.
  destruct (pyget E "total_3_year_profit") as [v|] eqn:Hp;
    [|subst E; vm_compute in Hp; discriminate Hp].
  destruct v as [p| | | | |]; try (subst E; vm_compute in Hp; discriminate Hp).
  assert (Hpos : 0 < p).
  { apply Qle_bool_false. subst E. vm_compute in Hp. injection Hp as <-.
    vm_compute. reflexivity. }
  assert (Hh : has_num E "total_3_year_profit" p) by (exists p; split; [exact Hp | reflexivity]).
  split; [reflexivity|]. split; [exact Hh|]. split; [exact Hpos|].
  exact (break_even_when_three_year_profit_positive s 0 (init_world 0) w' E p HE Hh Hpos).
Defined.

(** ** The resource summary *)

Lemma lookup_or_raise_ok {A} (k : string) (o : option A) (w : World) (a : A) (w' : World) :
  lookup_or_raise k o w = (Ok a, w') -> o = Some a /\ w' = w.
Proof.
  destruct o as [x|]; cbn; intro H; [|discriminate H].
  injection H as <- <-. split; reflexivity.
Qed.

Lemma instance_of_ok (t : string) (w : World) (i : InstanceSpec) (w' : World) :
  instance_of t w = (Ok i, w') -> assoc t (instances (pricing (calc w))) = Some i /\ w' = w.
Proof.
  unfold instance_of, bind at 1, self at 1. cbv beta iota.
  apply lookup_or_raise_ok.
Qed.

Lemma spec_of_some (f : InstanceSpec -> Q) (c : Calc) (t : string) (i : InstanceSpec) :
  assoc t (instances (pricing c)) = Some i -> spec_of f c t = f i.
Proof. intro H. unfold spec_of. rewrite H. reflexivity. Qed.

Lemma services_resources_run (w : World) (ss : list (string * ServiceConfig)) :
  forall v r res w', services_resources ss v r w = (Ok res, w') ->
  w' = w /\
  fst res == v + sumQ (map (fun p => replicas (snd p)
                                     * spec_of vcpu (calc w) (svc_instance_type (snd p))) ss) /\
  snd res == r + sumQ (map (fun p => replicas (snd p)
                                     * spec_of ram (calc w) (svc_instance_type (snd p))) ss).
Proof.
  induction ss as [|[name sc] ss IH]; intros v r res w' H; cbn [services_resources] in H.
  - unfold ret in H. injection H as <- <-. unfold sumQ. cbn.
    split; [reflexivity | split; ring].
  - apply bind_ok in H as (i1 & w1 & E1 & H). apply instance_of_ok in E1 as [Hi1 ->].
    cbv beta zeta in H.
    apply bind_ok in H as (i2 & w2 & E2 & H). apply instance_of_ok in E2 as [Hi2 ->].
    cbv beta zeta in H.
    apply IH in H as (-> & H1 & H2). split; [reflexivity|].
    unfold sumQ in *. cbn [map fold_right snd].
    rewrite (spec_of_some vcpu _ _ _ Hi1), (spec_of_some ram _ _ _ Hi2).
    rewrite H1, H2. split; ring.
Qed.

Lemma monitoring_resources_run (w : World) (ms : list (string * MonitoringConfig)) :
  forall v r g res w', monitoring_resources ms v r g w = (Ok res, w') ->
  w' = w /\
  fst (fst res) == v + sumQ (map (fun p => mon_units vcpu (calc w) (snd p)) ms) /\
  snd (fst res) == r + sumQ (map (fun p => mon_units ram (calc w) (snd p)) ms) /\
  snd res == g + sumQ (map (fun p => mon_storage (snd p)) ms).
Proof.
  induction ms as [|[name mc] ms IH]; intros v r g res w' H; cbn [monitoring_resources] in H.
  - unfold ret in H. injection H as <- <-. unfold sumQ. cbn.
    split; [reflexivity | split; [ring | split; ring]].
  - apply bind_ok in H as (r1 & w1 & E1 & H). destruct r1 as [v1 r1].
    cbv beta iota zeta in H.
    assert (Hstep : w1 = w /\ v1 == v + mon_units vcpu (calc w) mc /\
                    r1 == r + mon_units ram (calc w) mc).
    { unfold mon_units. destruct (mon_nodes mc) as [n|] eqn:Hn.
      - apply bind_ok in E1 as (t1 & wa & Ea & E1). apply lookup_or_raise_ok in Ea as [Ht1 ->].
        cbv beta in E1.
        apply bind_ok in E1 as (i1 & wb & Eb & E1). apply instance_of_ok in Eb as [Hi1 ->].
        cbv beta zeta in E1.
        apply bind_ok in E1 as (t2 & wc & Ec & E1). apply lookup_or_raise_ok in Ec as [Ht2 ->].
        cbv beta in E1.
        apply bind_ok in E1 as (i2 & wd & Ed & E1). apply instance_of_ok in Ed as [Hi2 ->].
        cbv beta zeta in E1.
        rewrite Ht1 in Ht2. injection Ht2 as <-.
        unfold ret in E1. injection E1 as <- <- <-.
        rewrite Ht1, (spec_of_some vcpu _ _ _ Hi1), (spec_of_some ram _ _ _ Hi2).
        split; [reflexivity | split; reflexivity].
      - unfold ret in E1. injection E1 as <- <- <-.
        split; [reflexivity | split; ring]. }
    destruct Hstep as (-> & Hv1 & Hr1).
    apply IH in H as (-> & H1 & H2 & H3). split; [reflexivity|].
    unfold sumQ in *. cbn [map fold_right snd].
    rewrite H1, H2, H3, Hv1, Hr1. unfold mon_storage.
    destruct (mon_storage_gb mc); (split; [ring | split; ring]).
Qed.

Lemma resource_summary_run (w : World) (S : pyval) (w' : World) :
  generate_resource_summary w = (Ok S, w') ->
  has_num S "total_vcpu" (summary_units vcpu (calc w)) /\
  has_num S "total_ram_gb" (summary_units ram (calc w)) /\
  has_num S "total_storage_gb" (summary_storage (calc w)) /\
  exists R x,
    fst (calculate_total_infrastructure_cost w) = Ok R /\
    pyget R "total_monthly" = Some (PNum x) /\
    pyget S "cost_per_participant_monthly" = Some (PNum (x / 50000)) /\
    pyget S "cost_per_meeting_monthly" = Some (PNum (x / 100)).
Proof.
  unfold generate_resource_summary. intro H.
  apply bind_ok in H as (c & w1 & E1 & H). unfold self in E1. injection E1 as <- <-.
  cbv beta zeta in H.
  repeat (apply bind_ok in H as (? & ? & ?E & H); apply instance_of_ok in E as [?Hi ->];
          cbv beta zeta in H).
  apply bind_ok in H as ([sv sr] & w2 & E2 & H).
  apply services_resources_run in E2 as (-> & Hsv & Hsr). cbv beta iota zeta in H.
  cbn [fst snd] in Hsv, Hsr.
  repeat (apply bind_ok in H as (? & ? & ?E & H); apply instance_of_ok in E as [?Hi ->];
          cbv beta zeta in H).
  apply bind_ok in H as ([[mv mr] mg] & w3 & E3 & H).
  apply monitoring_resources_run in E3 as (-> & Hmv & Hmr & Hmg). cbv beta iota zeta in H.
  cbn [fst snd] in Hmv, Hmr, Hmg.
  apply bind_ok in H as (t1 & w4 & E4 & H). cbv beta in H.
  destruct (total_infrastructure_run w t1 w4 E4)
    as (c1 & c2 & c3 & c4 & c5 & c6 & c7 & c8 & infra & _ & _ & _ & _ & _ & _ & _
        & _ & _ & _ & _ & _ & Ht1 & _).
  apply bind_ok in H as (q1 & w5 & E5 & H). cbv beta in H.
  unfold getq in E5. rewrite Ht1 in E5. injection E5 as <- <-.
  apply bind_ok in H as (t2 & w6 & E6 & H). cbv beta in H.
  assert (Ht2 : t2 = t1).
  { pose proof (frames_calculate_total_infrastructure_cost w) as Fc.
    rewrite E4 in Fc. cbn [snd] in Fc.
    destruct (indep_calculate_total_infrastructure_cost w4 w Fc) as [Hf _].
    rewrite E6, E4 in Hf. cbn [fst] in Hf. congruence. }
  subst t2.
  apply bind_ok in H as (q2 & w7 & E7 & H). cbv beta in H.
  unfold getq in E7. rewrite Ht1 in E7. injection E7 as <- <-.
  unfold ret in H. injection H as <- _.
  repeat match goal with
         | H1 : ?x = Some ?a, H2 : ?x = Some ?b |- _ =>
             rewrite H1 in H2; injection H2 as H2; subst b
         end.
  unfold has_num, summary_units, summary_storage.
  split; [|split; [|split]].
  - eexists. split; [reflexivity|].
    rewrite Hmv, Hsv.
    repeat match goal with H : assoc _ _ = Some _ |- _ =>
      rewrite (spec_of_some vcpu _ _ _ H); clear H end.
    ring.
  - eexists. split; [reflexivity|].
    rewrite Hmr, Hsr.
    repeat match goal with H : assoc _ _ = Some _ |- _ =>
      rewrite (spec_of_some ram _ _ _ H); clear H end.
    ring.
  - eexists. split; [reflexivity|]. rewrite Hmg. ring.
  - exists t1, (infra + infra * 0.15). rewrite E4.
    split; [reflexivity|]. split; [exact Ht1|]. split; reflexivity.
Qed.

Ltac peel_component H :=
  repeat (apply bind_ok in H as (? & ? & ? & H); cbv beta zeta in H);
  unfold ret in H; injection H as <- _;
  repeat match goal with
         | Hs : calculate_storage_cost _ _ = _ |- _ =>
             rewrite calculate_storage_cost_run in Hs; injection Hs as <- _
         end.

Lemma livekit_storage_billed (w : World) (R : pyval) (w' : World) :
  calculate_livekit_sfu_cost w = (Ok R, w') ->
  exists sc, pyget R "storage_cost" = Some sc /\
    pyget sc "storage_gb"
    = Some (PNum (lk_storage_gb (livekit_sfu (infrastructure (calc w)))
                  * lk_nodes (livekit_sfu (infrastructure (calc w))))).
Proof.
  unfold calculate_livekit_sfu_cost. intro H.
  apply bind_ok in H as (c & w1 & E1 & H). unfold self in E1. injection E1 as <- <-.
  cbv beta zeta in H.
  peel_component H. eexists. split; reflexivity.
Qed.

Lemma database_storage_billed (w : World) (R : pyval) (w' : World) :
  calculate_database_cost w = (Ok R, w') ->
  exists sc, pyget R "storage_cost" = Some sc /\
    pyget sc "storage_gb"
    = Some (PNum (ns_storage_gb (db_primary (database (infrastructure (calc w))))
                  + ns_storage_gb (db_replicas (database (infrastructure (calc w))))
                    * ns_nodes (db_replicas (database (infrastructure (calc w)))))).
Proof.
  unfold calculate_database_cost. intro H.
  apply bind_ok in H as (c & w1 & E1 & H). unfold self in E1. injection E1 as <- <-.
  cbv beta zeta in H.
  peel_component H. eexists. split; reflexivity.
Qed.

Lemma redis_storage_billed (w : World) (R : pyval) (w' : World) :
  calculate_redis_cost w = (Ok R, w') ->
  exists sc, pyget R "storage_cost" = Some sc /\
    pyget sc "storage_gb"
    = Some (PNum (ns_storage_gb (masters (redis (infrastructure (calc w))))
                  * ns_nodes (masters (redis (infrastructure (calc w))))
                  + ns_storage_gb (redis_replicas (redis (infrastructure (calc w))))
                    * ns_nodes (redis_replicas (redis (infrastructure (calc w)))))).
Proof.
  unfold calculate_redis_cost. intro H.
  apply bind_ok in H as (c & w1 & E1 & H). unfold self in E1. injection E1 as <- <-.
  cbv beta zeta in H.
  peel_component H. eexists. split; reflexivity.
Qed.



(** X16: [generate_resource_summary] counts the database replicas with the
    primary's instance type and the Redis replicas with the masters' type:
    giving the replicas any other priced or unpriced type leaves its vCPU,
    RAM and storage totals unchanged. *)
Theorem resource_summary_ignores_replica_types (w : World) (t_db t_redis : string)
  (S1 S2 : pyval)
  (H1 : fst (generate_resource_summary w) = Ok S1)
  (H2 : fst (generate_resource_summary
               {| calc := with_replica_types (calc w) t_db t_redis; clock := clock w |})
        = Ok S2) :
  forall k, In k ["total_vcpu"; "total_ram_gb"; "total_storage_gb"] ->
  exists x1 x2, pyget S1 k = Some (PNum x1) /\ pyget S2 k = Some (PNum x2) /\ x1 == x2.
Proof.
  destruct (generate_resource_summary w) as [[S1'|e] w1] eqn:E1; cbn [fst] in H1;
    [injection H1 as <- | discriminate H1].
  destruct (generate_resource_summary
              {| calc := with_replica_types (calc w) t_db t_redis; clock := clock w |})
    as [[S2'|e] w2] eqn:E2; cbn [fst] in H2;
    [injection H2 as <- | discriminate H2].
  destruct (resource_summary_run _ _ _ E1) as ((v1 & Hv1 & Ev1) & (r1 & Hr1 & Er1)
                                               & (g1 & Hg1 & Eg1) & _).
  destruct (resource_summary_run _ _ _ E2) as ((v2 & Hv2 & Ev2) & (r2 & Hr2 & Er2)
                                               & (g2 & Hg2 & Eg2) & _).
  cbn [calc] in Ev2, Er2, Eg2.
  intros k Hk. cbn [In] in Hk.
  destruct Hk as [<- | [<- | [<- | []]]].
  - exists v1, v2. split; [exact Hv1 | split; [exact Hv2|]].
    rewrite Ev1, Ev2. reflexivity.
  - exists r1, r2. split; [exact Hr1 | split; [exact Hr2|]].
    rewrite Er1, Er2. reflexivity.
  - exists g1, g2. split; [exact Hg1 | split; [exact Hg2|]].
    rewrite Eg1, Eg2. reflexivity.
Qed.

Lemma resource_summary_ignores_replica_types_witness :
  match fst (generate_resource_summary (init_world 0)),
        fst (generate_resource_summary
               {| calc := with_replica_types init_calc "medium" "small"; clock := 0%Z |}) with
  | Ok S1, Ok S2 =>
      exists x1 x2, pyget S1 "total_vcpu" = Some (PNum x1) /\
        pyget S2 "total_vcpu" = Some (PNum x2) /\ x1 == x2
  | _, _ => False
  end.
Proof.
  destruct (fst (generate_resource_summary (init_world 0))) as [S1|e] eqn:E1;
    [|vm_compute in E1; discriminate E1].
  destruct (fst (generate_resource_summary
                   {| calc := with_replica_types init_calc "medium" "small"; clock := 0%Z |}))
    as [S2|e] eqn:E2; [|vm_compute in E2; discriminate E2].
  apply (resource_summary_ignores_replica_types (init_world 0) "medium" "small" S1 S2 E1 E2).
  cbn. left. reflexivity.
Defined.

(** X17: the storage total of [generate_resource_summary] is the storage
    the LiveKit, database and Redis costs bill ([storage_cost.storage_gb])
    plus the [storage_gb] of every monitoring component. *)
Theorem resource_summary_storage_matches_billing (w : World) (S L D Rd : pyval)
  (HS : fst (generate_resource_summary w) = Ok S)
  (HL : fst (calculate_livekit_sfu_cost w) = Ok L)
  (HD : fst (calculate_database_cost w) = Ok D)
  (HRd : fst (calculate_redis_cost w) = Ok Rd) :
  exists sl sd sr gl gd gr,
    pyget L "storage_cost" = Some sl /\ pyget sl "storage_gb" = Some (PNum gl) /\
    pyget D "storage_cost" = Some sd /\ pyget sd "storage_gb" = Some (PNum gd) /\
    pyget Rd "storage_cost" = Some sr /\ pyget sr "storage_gb" = Some (PNum gr) /\
    has_num S "total_storage_gb"
      (gl + gd + gr
       + sumQ (map (fun p => mon_storage (snd p)) (monitoring (infrastructure (calc w))))).
Proof.
  destruct (generate_resource_summary w) as [[S'|e] w1] eqn:E1; cbn [fst] in HS;
    [injection HS as <- | discriminate HS].
  destruct (calculate_livekit_sfu_cost w) as [[L'|e] w2] eqn:E2; cbn [fst] in HL;
    [injection HL as <- | discriminate HL].
  destruct (calculate_database_cost w) as [[D'|e] w3] eqn:E3; cbn [fst] in HD;
    [injection HD as <- | discriminate HD].
  destruct (calculate_redis_cost w) as [[Rd'|e] w4] eqn:E4; cbn [fst] in HRd;
    [injection HRd as <- | discriminate HRd].
  destruct (resource_summary_run _ _ _ E1) as (_ & _ & (g & Hg & Eg) & _).
  destruct (livekit_storage_billed _ _ _ E2) as (sl & Hsl & Hgl).
  destruct (database_storage_billed _ _ _ E3) as (sd & Hsd & Hgd).
  destruct (redis_storage_billed _ _ _ E4) as (sr & Hsr & Hgr).
  do 6 eexists.
  split; [exact Hsl|]. split; [exact Hgl|].
  split; [exact Hsd|]. split; [exact Hgd|].
  split; [exact Hsr|]. split; [exact Hgr|].
  exists g. split; [exact Hg|]. rewrite Eg. unfold summary_storage. ring.
Qed.

Lemma resource_summary_storage_matches_billing_witness :
  match fst (generate_resource_summary (init_world 0)),
        fst (calculate_livekit_sfu_cost (init_world 0)),
        fst (calculate_database_cost (init_world 0)),
        fst (calculate_redis_cost (init_world 0)) with
  | Ok Sm, Ok L, Ok D, Ok Rd =>
      exists sl sd sr gl gd gr,
        pyget L "storage_cost" = Some sl /\ pyget sl "storage_gb" = Some (PNum gl) /\
        pyget D "storage_cost" = Some sd /\ pyget sd "storage_gb" = Some (PNum gd) /\
        pyget Rd "storage_cost" = Some sr /\ pyget sr "storage_gb" = Some (PNum gr) /\
        has_num Sm "total_storage_gb"
          (gl + gd + gr
           + sumQ (map (fun p => mon_storage (snd p)) (monitoring (infrastructure init_calc))))
  | _, _, _, _ => False
  end.
Proof.
  destruct (fst (generate_resource_summary (init_world 0))) as [Sm|e] eqn:E1;
    [|vm_compute in E1; discriminate E1].
  destruct (fst (calculate_livekit_sfu_cost (init_world 0))) as [L|e] eqn:E2;
    [|vm_compute in E2; discriminate E2].
  destruct (fst (calculate_database_cost (init_world 0))) as [D|e] eqn:E3;
    [|vm_compute in E3; discriminate E3].
  destruct (fst (calculate_redis_cost (init_world 0))) as [Rd|e] eqn:E4;
    [|vm_compute in E4; discriminate E4].
  exact (resource_summary_storage_matches_billing (init_world 0) Sm L D Rd E1 E2 E3 E4).
Defined.

(** ** LiveKit and Redis totals *)

(** X18: when the LiveKit instance type is priced,
    [calculate_livekit_sfu_cost] succeeds; its auto-scaling buffer is half
    the base instance cost, and its [total_monthly] is 1.5 times the base
    cost plus the block storage of [storage_gb] on every node. *)
Theorem livekit_sfu_cost_total (w : World)
  (Hp : priced (calc w) (lk_instance_type (livekit_sfu (infrastructure (calc w))))) :
  let c := calc w in
  let lk := livekit_sfu (infrastructure c) in
  let base := lk_nodes lk * price_of c (lk_instance_type lk) in
  exists R,
    calculate_livekit_sfu_cost w = (Ok R, w) /\
    has_num R "auto_scaling_buffer" (base * 0.5) /\
    has_num R "total_monthly"
      (base * 1.5 + lk_storage_gb lk * lk_nodes lk * block_storage (storage (pricing c))).
Proof.
  destruct Hp as [i Hi]. cbv zeta.
  unfold calculate_livekit_sfu_cost. unfold bind at 1, self at 1. cbv beta zeta.
  unfold bind at 1. rewrite (calculate_instance_cost_run w _ _ i Hi). cbv beta.
  unfold bind at 1. rewrite calculate_storage_cost_run. cbv beta.
  cbn. unfold ret. eexists. split; [reflexivity|].
  rewrite (price_of_some _ _ _ Hi).
  unfold has_num. cbn.
  split; eexists; split; try reflexivity; ring.
Qed.

Lemma livekit_sfu_cost_total_witness :
  let w := init_world 0 in
  priced (calc w) (lk_instance_type (livekit_sfu (infrastructure (calc w)))) /\
  let c := calc w in
  let lk := livekit_sfu (infrastructure c) in
  let base := lk_nodes lk * price_of c (lk_instance_type lk) in
  exists R,
    calculate_livekit_sfu_cost w = (Ok R, w) /\
    has_num R "auto_scaling_buffer" (base * 0.5) /\
    has_num R "total_monthly"
      (base * 1.5 + lk_storage_gb lk * lk_nodes lk * block_storage (storage (pricing c))).
Proof.
  intro w.
  assert (Hp : priced (calc w) (lk_instance_type (livekit_sfu (infrastructure (calc w)))))
    by (eexists; reflexivity).
  split; [exact Hp|].
  exact (livekit_sfu_cost_total w Hp).
Defined.

(** X19: when the Redis masters' and replicas' instance types are priced,
    [calculate_redis_cost] succeeds; its [total_monthly] is the masters'
    and the replicas' instance costs, each at its own type's price, plus
    the block storage of [storage_gb] on every master and every replica. *)
Theorem redis_cost_total (w : World)
  (Hm : priced (calc w) (ns_instance_type (masters (redis (infrastructure (calc w))))))
  (Hr : priced (calc w) (ns_instance_type (redis_replicas (redis (infrastructure (calc w)))))) :
  let c := calc w in
  let rd := redis (infrastructure c) in
  let storage_gb := ns_storage_gb (masters rd) * ns_nodes (masters rd)
                    + ns_storage_gb (redis_replicas rd) * ns_nodes (redis_replicas rd) in
  exists R,
    calculate_redis_cost w = (Ok R, w) /\
    has_num R "total_monthly"
      (ns_nodes (masters rd) * price_of c (ns_instance_type (masters rd))
       + ns_nodes (redis_replicas rd) * price_of c (ns_instance_type (redis_replicas rd))
       + storage_gb * block_storage (storage (pricing c))).
Proof.
  destruct Hm as [im Him], Hr as [ir Hir]. cbv zeta.
  unfold calculate_redis_cost. unfold bind at 1, self at 1. cbv beta zeta.
  unfold bind at 1. rewrite (calculate_instance_cost_run w _ _ im Him). cbv beta.
  unfold bind at 1. rewrite (calculate_instance_cost_run w _ _ ir Hir). cbv beta zeta.
  unfold bind at 1. rewrite calculate_storage_cost_run. cbv beta.
  cbn. unfold ret. eexists. split; [reflexivity|].
  rewrite (price_of_some _ _ _ Him), (price_of_some _ _ _ Hir).
  unfold has_num. cbn.
  eexists; split; [reflexivity|]; ring.
Qed.

Lemma redis_cost_total_witness :
  let w := init_world 0 in
  priced (calc w) (ns_instance_type (masters (redis (infrastructure (calc w))))) /\
  priced (calc w) (ns_instance_type (redis_replicas (redis (infrastructure (calc w))))) /\
  let c := calc w in
  let rd := redis (infrastructure c) in
  let storage_gb := ns_storage_gb (masters rd) * ns_nodes (masters rd)
                    + ns_storage_gb (redis_replicas rd) * ns_nodes (redis_replicas rd) in
  exists R,
    calculate_redis_cost w = (Ok R, w) /\
    has_num R "total_monthly"
      (ns_nodes (masters rd) * price_of c (ns_instance_type (masters rd))
       + ns_nodes (redis_replicas rd) * price_of c (ns_instance_type (redis_replicas rd))
       + storage_gb * block_storage (storage (pricing c))).
Proof.
  intro w.
  assert (Hm : priced (calc w) (ns_instance_type (masters (redis (infrastructure (calc w))))))
    by (eexists; reflexivity).
  assert (Hr : priced (calc w) (ns_instance_type (redis_replicas (redis (infrastructure (calc w))))))
    by (eexists; reflexivity).
  split; [exact Hm|]. split; [exact Hr|].
  exact (redis_cost_total w Hm Hr).
Defined.

(** ** Revenue and break-even *)

Lemma month_profit_nonpos (yp1 yp2 yp3 : Q) (month : nat) :
  yp1 <= 0 -> yp2 <= 0 -> yp3 <= 0 -> month_profit yp1 yp2 yp3 month <= 0.
Proof.
  intros H1 H2 H3. unfold month_profit.
  destruct (month <=? 12)%nat; [|destruct (month <=? 24)%nat];
    apply Qle_shift_div_r; first [reflexivity | lra].
Qed.

(** X20: in every scenario of [generate_roi_analysis], a year with [m]
    meetings a day earns [360 * m * (190 * enterprise_ratio + 22)]: the
    enterprise, professional (30%) and basic meetings at 200, 50 and 10 a
    meeting, 30 days a month, 12 months; the year's profit is that revenue
    minus 12 months of the monthly burn. *)
Theorem yearly_revenue_closed_form (s : Scenario) (burn : Q) (y : Z) (m : Q)
  (Hy : meetings_per_day_of s y = Some m) :
  yearly_revenue s burn y == 360 * m * (190 * enterprise_ratio s + 22) /\
  yearly_profit s burn y == 360 * m * (190 * enterprise_ratio s + 22) - 12 * burn.
Proof.
  unfold yearly_revenue, yearly_profit. rewrite Hy.
  unfold year_figures. cbn [fst snd tier_price tier_enterprise tier_professional tier_basic].
  split; ring.
Qed.

Lemma yearly_revenue_closed_form_witness :
  let s := {| year1_meetings_per_day := 100; year2_meetings_per_day := 500;
              year3_meetings_per_day := 1000; enterprise_ratio := 0.2 |} in
  meetings_per_day_of s 2%Z = Some 500 /\
  yearly_revenue s 1000 2%Z == 360 * 500 * (190 * enterprise_ratio s + 22) /\
  yearly_profit s 1000 2%Z == 360 * 500 * (190 * enterprise_ratio s + 22) - 12 * 1000.
Proof.
  intro s. split; [reflexivity|].
  apply (yearly_revenue_closed_form s 1000 2%Z 500). reflexivity.
Defined.

Lemma break_even_loop_nonpos (yp1 yp2 yp3 ot : Q) (Hot : 0 <= ot)
  (H1 : yp1 <= 0) (H2 : yp2 <= 0) (H3 : yp3 <= 0) :
  forall months cp, cp <= 0 -> break_even_loop yp1 yp2 yp3 ot months cp None = None.
Proof.
  induction months as [|month rest IH]; intros cp Hcp; cbn [break_even_loop]; [reflexivity|].
  pose proof (month_profit_nonpos yp1 yp2 yp3 month H1 H2 H3) as Hm.
  set (mp := month_profit yp1 yp2 yp3 month) in *.
  assert (Hc : (if (month =? 1)%nat then mp - ot else cp + mp) <= 0)
    by (destruct (month =? 1)%nat; lra).
  destruct (Qlt_le_dec 0 (if (month =? 1)%nat then mp - ot else cp + mp)) as [Hlt|_].
  - exfalso. lra.
  - apply IH. exact Hc.
Qed.

(** X21: when none of the three years makes a profit and the one-time
    costs are not negative, the break-even scan of [generate_roi_analysis]
    finds no month: [break_even_month] stays [None]. *)
Theorem break_even_none_without_profit (yp1 yp2 yp3 one_time_costs : Q)
  (H1 : yp1 <= 0) (H2 : yp2 <= 0) (H3 : yp3 <= 0) (Hot : 0 <= one_time_costs) :
  break_even_scan yp1 yp2 yp3 one_time_costs = None.
Proof.
  unfold break_even_scan. apply break_even_loop_nonpos; try assumption. apply Qle_refl.
Qed.

Lemma break_even_none_without_profit_witness :
  (-100 <= 0 /\ 0 <= 0 /\ -5 <= 0 /\ 0 <= 130000) /\
  break_even_scan (-100) 0 (-5) 130000 = None.
Proof.
  split; [split; [|split; [|split]]; discriminate|].
  apply break_even_none_without_profit; discriminate.
Defined.
